(** * The feed screens of the news app, and their fetch routine

    Two React Native screens are embedded here:

    - the mock screen (MOCK_DATA, simulateFetch, paginated fetchData);
    - the remote screen of app/(tabs)/index.tsx (one GET to /top-news).

    A screen is a state record (the useState cells) driven by events of
    the host: the list reaching its end (which calls fetchData, as the
    mount effect does), the settlement of an awaited promise, and the
    unmounting of the screen.  fetchData is split at its await: the part
    before it runs when the function is called, the part after it when the
    promise settles.  Setter calls are first-order commands, interpreted
    on the state record in the order the code issues them.  A call of
    fetchData reads loading, hasMore and page as the latest render left
    them; rendering is an event of its own, so that a call can come
    before the render that a setter asked for.

    Tracing lines written with console.log touch no state and are left
    out; console.error lines are kept. *)

From Stdlib Require Import ZArith List String Bool Lia DecimalString FinFun.
From Stdlib Require Import DecimalPos DecimalZ.
Import ListNotations.
Open Scope string_scope.
Open Scope list_scope.
Open Scope Z_scope.

(** ** JavaScript values shared by both screens *)

(** How an awaited promise settles. *)
Inductive Settled (A : Type) : Type :=
| Fulfilled (value : A)
| Rejected (reason : string).
Arguments Fulfilled {A} value.
Arguments Rejected {A} reason.

(** Array.prototype.slice(start, end) on integer arguments: a negative
    index counts from the end, both are clamped to the array. *)
Definition js_slice {A : Type} (l : list A) (start end_ : Z) : list A :=
  let len := Z.of_nat (List.length l) in
  let k := if start <? 0 then Z.max (len + start) 0 else Z.min start len in
  let final := if end_ <? 0 then Z.max (len + end_) 0 else Z.min end_ len in
  firstn (Z.to_nat (final - k)) (skipn (Z.to_nat k) l).

(** Number-to-string conversion of an integer, as a template literal
    does it. *)
Definition number_to_string (z : Z) : string :=
  NilZero.string_of_int (Z.to_int z).

(** A line written with console.error(msg, error). *)
Inductive Console : Type :=
| console_error (msg : string) (reason : string).

(** The one bundled image both screens show. *)
Definition react_logo : string := "../../assets/images/react-logo.png".

(** What renderFooter returns when it does not return null: the loader
    view with its ActivityIndicator. *)
Inductive Footer : Type :=
| loader (size : string) (color : string).

(** ** The mock screen *)

Module Mock.

Record Item : Type := mkItem {
  id : Z;
  title : string;
  thumbnail : string
}.

Definition TOTAL_ITEMS : Z := 50.
Definition PAGE_SIZE : Z := 5.

(** Array.from({ length: TOTAL_ITEMS }, (_, index) => ...) *)
Definition MOCK_DATA : list Item :=
  map (fun index : nat =>
         let i := Z.of_nat index in
         {| id := i + 1;
            title := String.append "News " (number_to_string (i + 1));
            thumbnail := react_logo |})
      (seq 0 (Z.to_nat TOTAL_ITEMS)).

(** The promise only ever calls resolve, from its timer, with the slice
    of the page. *)
Definition simulateFetch (page : Z) : Settled (list Item) :=
  let start := (page - 1) * PAGE_SIZE in
  let end_ := start + PAGE_SIZE in
  let result := js_slice MOCK_DATA start end_ in
  Fulfilled result.

(** The four useState cells. *)
Record State : Type := mkState {
  data : list Item;
  page : Z;
  loading : bool;
  hasMore : bool
}.

Definition initial : State :=
  {| data := []; page := 1; loading := false; hasMore := true |}.

(** The setter calls fetchData makes. *)
Inductive Setter : Type :=
| setData_append (result : list Item)  (* setData(prevData => [...prevData, ...result]) *)
| setPage_incr                         (* setPage(prevPage => prevPage + 1) *)
| setLoading (b : bool)
| setHasMore (b : bool).

Definition apply (s : State) (c : Setter) : State :=
  match c with
  | setData_append result =>
      {| data := data s ++ result; page := page s;
         loading := loading s; hasMore := hasMore s |}
  | setPage_incr =>
      {| data := data s; page := page s + 1;
         loading := loading s; hasMore := hasMore s |}
  | setLoading b =>
      {| data := data s; page := page s;
         loading := b; hasMore := hasMore s |}
  | setHasMore b =>
      {| data := data s; page := page s;
         loading := loading s; hasMore := b |}
  end.

Definition apply_all (s : State) (cs : list Setter) : State :=
  fold_left apply cs s.

(** fetchData up to its await: the guard, setLoading(true), and the call
    simulateFetch(page) with the page of the current render. *)
Definition fetchData_enter (s : State) : list Setter * option Z :=
  if loading s || negb (hasMore s) then ([], None)
  else ([setLoading true], Some (page s)).

(** fetchData after its await: the try body on a fulfilled promise, the
    catch block on a rejected one, then the finally block. *)
Definition fetchData_resume (o : Settled (list Item))
  : list Setter * list Console :=
  let '(cs, out) :=
    match o with
    | Fulfilled result =>
        if Z.of_nat (List.length result) =? 0
        then ([setHasMore false], [])
        else ([setData_append result; setPage_incr], [])
    | Rejected error =>
        ([], [console_error "Error fetching data: " error])
    end in
  (cs ++ [setLoading false], out).

(** The screen and what surrounds it.  loading, hasMore and page are
    constants of a render: the fetchData that the list holds reads them as
    the latest render left them, whatever was set since. *)
Record World : Type := mkWorld {
  view : option State;      (* the state cells; None once unmounted *)
  rendered : State;         (* the cells as the latest render read them *)
  inflight : list Z;        (* page of each pending simulateFetch, oldest first *)
  requests : list Z;        (* page of every simulateFetch call so far *)
  console : list Console;
  stray : list Setter       (* setter calls issued after the unmount *)
}.

Definition mounted : World :=
  {| view := Some initial; rendered := initial;
     inflight := []; requests := []; console := []; stray := [] |}.

Definition request (r : option Z) : list Z :=
  match r with Some p => [p] | None => [] end.

(** fetchData() is called: by the mount effect, or by onEndReached.  The
    guard and the page come from the render that made the function; the
    setter acts on the cells. *)
Definition invoke (w : World) : World :=
  match view w with
  | None => w
  | Some s =>
      let '(cs, r) := fetchData_enter (rendered w) in
      {| view := Some (apply_all s cs);
         rendered := rendered w;
         inflight := inflight w ++ request r;
         requests := requests w ++ request r;
         console := console w;
         stray := stray w |}
  end.

(** The awaited promise of the oldest pending call settles as [o]. *)
Definition settle (o : Settled (list Item)) (w : World) : World :=
  match inflight w with
  | [] => w
  | _ :: rest =>
      let '(cs, out) := fetchData_resume o in
      match view w with
      | Some s =>
          {| view := Some (apply_all s cs); rendered := rendered w;
             inflight := rest; requests := requests w;
             console := console w ++ out; stray := stray w |}
      | None =>
          {| view := None; rendered := rendered w;
             inflight := rest; requests := requests w;
             console := console w ++ out; stray := stray w ++ cs |}
      end
  end.

(** The timer of the oldest pending simulateFetch fires. *)
Definition timer_fired (w : World) : World :=
  match inflight w with
  | [] => w
  | p :: _ => settle (simulateFetch p) w
  end.

Definition unmount (w : World) : World :=
  {| view := None; rendered := rendered w;
     inflight := inflight w; requests := requests w;
     console := console w; stray := stray w |}.

(** The component function runs again: the list gets a fetchData that
    reads the cells as they are now. *)
Definition render (w : World) : World :=
  match view w with
  | None => w
  | Some s =>
      {| view := Some s; rendered := s;
         inflight := inflight w; requests := requests w;
         console := console w; stray := stray w |}
  end.

(** What the host does to the screen.  EndReached is a call of
    fetchData(): onEndReached of the list, or the mount effect, which
    makes the same call once, before any other render.  Render may come
    at any time, or late: two calls can come from one render. *)
Inductive Event : Type := EndReached | TimerFired | Unmount | Render.

Definition step (w : World) (e : Event) : World :=
  match e with
  | EndReached => invoke w
  | TimerFired => timer_fired w
  | Unmount => unmount w
  | Render => render w
  end.

Definition run (w : World) (es : list Event) : World :=
  fold_left step es w.

(** A step after which the screen renders before anything else happens,
    and a run made of such steps. *)
Definition step_rendered (w : World) (e : Event) : World :=
  render (step w e).

Definition run_rendered (w : World) (es : list Event) : World :=
  fold_left step_rendered es w.

(** One fetchData call carried to its end, the screen rendering after
    the call and after the completion. *)
Definition round (w : World) : World :=
  step_rendered (step_rendered w EndReached) TimerFired.

Fixpoint rounds (n : nat) (w : World) : World :=
  match n with
  | O => w
  | S n' => round (rounds n' w)
  end.

(** The first pages of MOCK_DATA, up to page [p] excluded. *)
Definition pages_before (p : Z) : list Item :=
  firstn (Z.to_nat (PAGE_SIZE * (p - 1))) MOCK_DATA.

(** The page numbers 1, 2, ..., n. *)
Definition count_up (n : Z) : list Z :=
  map Z.of_nat (seq 1 (Z.to_nat n)).

(** What holds of the screen as long as it renders after every event:
    the list holds the fetchData of the cells as they are, nothing was
    written to the console, the list shows the pages before the current
    one, a call is pending exactly while loading is set, for the current
    page, and the pages were asked for once each, in order. *)
Definition consistent (w : World) : Prop :=
  console w = [] /\
  match view w with
  | Some s =>
      rendered w = s /\
      1 <= page s <= 11 /\
      data s = pages_before (page s) /\
      ((inflight w = [] /\ loading s = false) \/
       (inflight w = [page s] /\ loading s = true /\ hasMore s = true)) /\
      requests w
      = count_up (page s - 1 + Z.of_nat (List.length (inflight w))
                  + (if hasMore s then 0 else 1))
  | None => (List.length (inflight w) <= 1)%nat /\ NoDup (requests w)
  end.

(** The screen at rest on page [p], with more to come. *)
Definition at_page (p : Z) : World :=
  {| view := Some {| data := pages_before p; page := p;
                     loading := false; hasMore := true |};
     rendered := {| data := pages_before p; page := p;
                    loading := false; hasMore := true |};
     inflight := []; requests := count_up (p - 1);
     console := []; stray := [] |}.

(** Every assignment to hasMore among the calls [cs] writes false. *)
Definition writes_false (cs : list Setter) : Prop :=
  forall b : bool, In (setHasMore b) cs -> b = false.

(** Fetching has stopped: the screen is gone, or hasMore is false and
    the screen has rendered since. *)
Definition stopped (w : World) : Prop :=
  match view w with
  | Some s => hasMore s = false /\ hasMore (rendered w) = false
  | None => True
  end.

(** What a card of the list shows: the image, the title, the body text
    and the caption.  The text children of a JSX element are joined, a
    line break with its indentation counting as one space. *)
Record Card : Type := mkCard {
  card_image : string;
  card_title : string;
  card_body : string;
  card_caption : string
}.

Definition renderItem (item : Item) : Card :=
  {| card_image := thumbnail item;
     card_title := title item;
     card_body :=
       String.append "This is a sample news body for "
         (String.append (title item)
            ". It can be multiple lines long. For demonstration purposes, we are limiting the text to a few lines. Here is another line to make it longer.");
     card_caption :=
       String.append "This is a sample caption for "
         (String.append (title item) ".") |}.

Definition keyExtractor (item : Item) : string :=
  number_to_string (id item).

(** The cards of the list with their keys, one per element of data. *)
Definition rows (s : State) : list (string * Card) :=
  map (fun item => (keyExtractor item, renderItem item)) (data s).

Definition renderFooter (s : State) : option Footer :=
  if negb (loading s) then None else Some (loader "large" "#fff").

(** How many calls of fetchData, each carried to its end, are still
    needed before hasMore is false. *)
Definition remaining (s : State) : Z :=
  if hasMore s then 12 - page s else 0.

(** hasMore is only false on the page after the last. *)
Definition ends_after_last_page (w : World) : Prop :=
  match view w with
  | Some s => hasMore s = false -> page s = 11
  | None => True
  end.

End Mock.

(** ** The remote screen *)

Module Remote.

Definition BACKEND_URL : string := "http://AINewsBackend.eu.pythonanywhere.com".

(** An article of the response: the members the screen reads, each one
    absent (undefined) or a string. *)
Record Article : Type := mkArticle {
  title : option string;
  summary : option string;
  content : option string
}.

(** The articles member of the parsed body. *)
Inductive Articles : Type :=
| articles_undefined
| articles_null
| articles_array (items : list Article).

(** The parsed body: the shape the screen expects, { articles: [...] },
    with the member optional; or the JSON text null. *)
Inductive Json : Type :=
| json_null
| json_object (articles : Articles).

(** The response of fetch, with the settlement of its json() call. *)
Record Response : Type := mkResponse {
  json : Settled Json
}.

(** The three useState cells. *)
Record State : Type := mkState {
  data : list Article;
  loading : bool;
  hasMore : bool
}.

Definition initial : State :=
  {| data := []; loading := false; hasMore := true |}.

Inductive Setter : Type :=
| setData (articles : list Article)
| setLoading (b : bool)
| setHasMore (b : bool).

Definition apply (s : State) (c : Setter) : State :=
  match c with
  | setData articles =>
      {| data := articles; loading := loading s; hasMore := hasMore s |}
  | setLoading b =>
      {| data := data s; loading := b; hasMore := hasMore s |}
  | setHasMore b =>
      {| data := data s; loading := loading s; hasMore := b |}
  end.

Definition apply_all (s : State) (cs : list Setter) : State :=
  fold_left apply cs s.

(** fetchData up to its first await: the guard, setLoading(true), and the
    GET it issues. *)
Definition fetchData_enter (s : State) : list Setter * option string :=
  if loading s || negb (hasMore s) then ([], None)
  else ([setLoading true], Some (String.append BACKEND_URL "/top-news")).

(** The try body once the body is parsed.  Reading a member of null
    throws. *)
Definition on_json (j : Json) : Settled (list Setter) :=
  match j with
  | json_null => Rejected "TypeError"
  | json_object articles_undefined
  | json_object articles_null => Fulfilled [setHasMore false]
  | json_object (articles_array items) =>
      if 0 <? Z.of_nat (List.length items)
      then Fulfilled [setData items; setHasMore false]
      else Fulfilled [setHasMore false]
  end.

(** fetchData after its awaits: try body, catch block, finally block. *)
Definition fetchData_resume (o : Settled Response)
  : list Setter * list Console :=
  let attempt :=
    match o with
    | Rejected error => Rejected error
    | Fulfilled response =>
        match json response with
        | Rejected error => Rejected error
        | Fulfilled j => on_json j
        end
    end in
  let '(cs, out) :=
    match attempt with
    | Fulfilled cs => (cs, [])
    | Rejected error => ([], [console_error "Error fetching news:" error])
    end in
  (cs ++ [setLoading false], out).

(** Truthiness of an optional string: undefined and the empty string are
    falsy. *)
Definition truthy (v : option string) : bool :=
  match v with
  | Some s => negb (s =? "")%string
  | None => false
  end.

(** What a card shows. *)
Record Row : Type := mkRow {
  row_key : string;
  row_image : string;
  row_title : option string;
  row_body : option string
}.

Definition keyExtractor (item : Article) (index : nat) : string :=
  number_to_string (Z.of_nat index).

Definition renderItem (item : Article) (index : nat) : Row :=
  {| row_key := keyExtractor item index;
     row_image := react_logo;
     row_title := title item;
     row_body := if truthy (summary item) then summary item else content item |}.

(** The cards of the list, one per element of data. *)
Definition rows (s : State) : list Row :=
  map (fun p : nat * Article => renderItem (snd p) (fst p))
      (combine (seq 0 (List.length (data s))) (data s)).

Record World : Type := mkWorld {
  view : option State;      (* the state cells; None once unmounted *)
  rendered : State;         (* the cells as the latest render read them *)
  inflight : list string;   (* URL of each pending GET, oldest first *)
  requests : list string;   (* every GET issued so far *)
  console : list Console;
  stray : list Setter       (* setter calls issued after the unmount *)
}.

Definition mounted : World :=
  {| view := Some initial; rendered := initial;
     inflight := []; requests := []; console := []; stray := [] |}.

Definition request (r : option string) : list string :=
  match r with Some url => [url] | None => [] end.

(** fetchData() is called: by the mount effect, or by onEndReached.  The
    guard reads loading and hasMore of the render that made the function;
    the setter acts on the cells. *)
Definition invoke (w : World) : World :=
  match view w with
  | None => w
  | Some s =>
      let '(cs, r) := fetchData_enter (rendered w) in
      {| view := Some (apply_all s cs);
         rendered := rendered w;
         inflight := inflight w ++ request r;
         requests := requests w ++ request r;
         console := console w;
         stray := stray w |}
  end.

(** The oldest pending GET settles as [o]. *)
Definition settles (o : Settled Response) (w : World) : World :=
  match inflight w with
  | [] => w
  | _ :: rest =>
      let '(cs, out) := fetchData_resume o in
      match view w with
      | Some s =>
          {| view := Some (apply_all s cs); rendered := rendered w;
             inflight := rest; requests := requests w;
             console := console w ++ out; stray := stray w |}
      | None =>
          {| view := None; rendered := rendered w;
             inflight := rest; requests := requests w;
             console := console w ++ out; stray := stray w ++ cs |}
      end
  end.

Definition unmount (w : World) : World :=
  {| view := None; rendered := rendered w;
     inflight := inflight w; requests := requests w;
     console := console w; stray := stray w |}.

(** The component function runs again: the list gets a fetchData that
    reads the cells as they are now. *)
Definition render (w : World) : World :=
  match view w with
  | None => w
  | Some s =>
      {| view := Some s; rendered := s;
         inflight := inflight w; requests := requests w;
         console := console w; stray := stray w |}
  end.

(** What the host does to the screen.  EndReached is a call of
    fetchData(): onEndReached of the list, or the mount effect, which
    makes the same call once, before any other render.  Render may come
    at any time, or late: two calls can come from one render. *)
Inductive Event : Type :=
| EndReached
| Settles (o : Settled Response)
| Unmount
| Render.

Definition step (w : World) (e : Event) : World :=
  match e with
  | EndReached => invoke w
  | Settles o => settles o w
  | Unmount => unmount w
  | Render => render w
  end.

Definition run (w : World) (es : list Event) : World :=
  fold_left step es w.

(** A step after which the screen renders before anything else happens,
    and a run made of such steps. *)
Definition step_rendered (w : World) (e : Event) : World :=
  render (step w e).

Definition run_rendered (w : World) (es : list Event) : World :=
  fold_left step_rendered es w.

(** The bodies the properties below speak of. *)
Definition body (j : Json) : Settled Response :=
  Fulfilled {| json := Fulfilled j |}.

Definition unparsable (reason : string) : Settled Response :=
  Fulfilled {| json := Rejected reason |}.

(** A settlement that sends fetchData to its catch block: fetch rejects,
    json() rejects, or the body is null. *)
Definition throws (o : Settled Response) : Prop :=
  (exists reason, o = Rejected reason) \/
  (exists reason, o = unparsable reason) \/
  o = body json_null.

(** Every assignment to hasMore among the calls [cs] writes false. *)
Definition writes_false (cs : list Setter) : Prop :=
  forall b : bool, In (setHasMore b) cs -> b = false.

(** Fetching has stopped: the screen is gone, or hasMore is false and
    the screen has rendered since. *)
Definition stopped (w : World) : Prop :=
  match view w with
  | Some s => hasMore s = false /\ hasMore (rendered w) = false
  | None => True
  end.

(** What holds of the screen as long as it renders after every event:
    the list holds the fetchData of the cells as they are, and a GET is
    pending exactly while loading is set, never more than one. *)
Definition consistent (w : World) : Prop :=
  match view w with
  | Some s =>
      rendered w = s /\
      ((inflight w = [] /\ loading s = false) \/
       (inflight w = [String.append BACKEND_URL "/top-news"] /\
        loading s = true /\ hasMore s = true))
  | None => (List.length (inflight w) <= 1)%nat
  end.

Definition renderFooter (s : State) : option Footer :=
  if negb (loading s) then None else Some (loader "large" "#fff").

(** Every GET but the last is matched by an error line. *)
Definition accounted (w : World) : Prop :=
  match view w with
  | Some s =>
      List.length (requests w)
      = (List.length (console w)
         + (if hasMore s then List.length (inflight w) else 1))%nat
  | None => (List.length (requests w) <= List.length (console w) + 1)%nat
  end.

End Remote.

(** * Properties *)

(** ** Lists and slices *)

Lemma firstn_then_firstn_skipn {A : Type} (n m : nat) (l : list A) :
  firstn n l ++ firstn m (skipn n l) = firstn (n + m) l.
Proof.
  revert l; induction n as [|n IH]; intros l; [reflexivity|].
  destruct l as [|x l]; simpl.
  - now rewrite firstn_nil.
  - now rewrite IH.
Qed.

(** On indices 0 <= a <= b the slice is the b - a elements after the
    first a. *)
Lemma js_slice_from_to {A : Type} (l : list A) (a b : Z) :
  0 <= a <= b ->
  js_slice l a b = firstn (Z.to_nat (b - a)) (skipn (Z.to_nat a) l).
Proof.
  intros Hab. unfold js_slice.
  destruct (Z.ltb_spec a 0) as [?|_]; [lia|].
  destruct (Z.ltb_spec b 0) as [?|_]; [lia|].
  set (len := Z.of_nat (List.length l)).
  destruct (Z.le_gt_cases len a) as [Hla|Hla].
  - (* the slice starts past the end *)
    rewrite (skipn_all2 (n := Z.to_nat (Z.min a len))) by (unfold len in *; lia).
    rewrite (skipn_all2 (n := Z.to_nat a)) by (unfold len in *; lia).
    now rewrite !firstn_nil.
  - replace (Z.min a len) with a by lia.
    destruct (Z.le_gt_cases b len) as [Hlb|Hlb].
    + now replace (Z.min b len) with b by lia.
    + replace (Z.min b len) with len by lia.
      rewrite !firstn_all2; trivial;
        rewrite length_skipn; unfold len in *; lia.
Qed.

(** ** The mock screen *)

Lemma MOCK_DATA_length : List.length Mock.MOCK_DATA = 50%nat.
Proof. reflexivity. Qed.

(** From page 1 on, simulateFetch resolves with the five items after the
    pages before. *)
Lemma simulateFetch_page (p : Z) :
  1 <= p ->
  Mock.simulateFetch p =
  Fulfilled (firstn 5 (skipn (Z.to_nat (Mock.PAGE_SIZE * (p - 1))) Mock.MOCK_DATA)).
Proof.
  intros Hp. unfold Mock.simulateFetch, Mock.PAGE_SIZE.
  rewrite js_slice_from_to by lia.
  replace ((p - 1) * 5 + 5 - (p - 1) * 5) with 5 by lia.
  now replace ((p - 1) * 5) with (5 * (p - 1)) by lia.
Qed.

Lemma pages_before_next (p : Z) :
  1 <= p ->
  Mock.pages_before p
    ++ firstn 5 (skipn (Z.to_nat (Mock.PAGE_SIZE * (p - 1))) Mock.MOCK_DATA)
  = Mock.pages_before (p + 1).
Proof.
  intros Hp. unfold Mock.pages_before, Mock.PAGE_SIZE.
  rewrite firstn_then_firstn_skipn. f_equal; lia.
Qed.

(** A page that is not empty starts inside MOCK_DATA. *)
Lemma page_not_empty (p : Z) :
  1 <= p ->
  firstn 5 (skipn (Z.to_nat (Mock.PAGE_SIZE * (p - 1))) Mock.MOCK_DATA) <> [] ->
  p <= 10.
Proof.
  intros Hp Hne. destruct (Z.le_gt_cases p 10) as [|Hgt]; trivial.
  exfalso; apply Hne.
  rewrite skipn_all2; [apply firstn_nil|].
  rewrite MOCK_DATA_length. unfold Mock.PAGE_SIZE. lia.
Qed.

Lemma count_up_next (n : Z) :
  0 <= n -> Mock.count_up (n + 1) = Mock.count_up n ++ [n + 1].
Proof.
  intros Hn. unfold Mock.count_up.
  replace (Z.to_nat (n + 1)) with (S (Z.to_nat n)) by lia.
  rewrite seq_S, map_app. cbn [map]. do 2 f_equal. lia.
Qed.

Lemma count_up_NoDup (n : Z) : NoDup (Mock.count_up n).
Proof.
  apply Injective_map_NoDup; [intros x y; apply Nat2Z.inj | apply seq_NoDup].
Qed.

Lemma mounted_consistent : Mock.consistent Mock.mounted.
Proof.
  split; [reflexivity|]. simpl. repeat split; try lia. now left.
Qed.

(** Closes the goals left once a step has been unfolded. *)
Ltac consistent_after :=
  split; [reflexivity|]; cbn -[Mock.count_up Mock.pages_before];
  repeat split; try lia; auto.

Lemma step_consistent (w : Mock.World) (e : Mock.Event) :
  Mock.consistent w -> Mock.consistent (Mock.step_rendered w e).
Proof.
  unfold Mock.step_rendered.
  destruct w as [[s|] r fl rq con st]; intros [Hcon Hw];
    cbn -[Mock.count_up Mock.pages_before] in Hcon, Hw; subst con.
  - destruct Hw as (Hr & Hp & Hd & Hfl & Hrq). subst r.
    destruct s as [d p l h]; cbn -[Mock.count_up Mock.pages_before] in *.
    destruct e; cbn [Mock.step].
    + (* onEndReached *)
      unfold Mock.invoke, Mock.fetchData_enter;
        cbn [Mock.view Mock.rendered Mock.loading Mock.hasMore].
      destruct Hfl as [[-> ->]|(-> & -> & ->)]; [destruct h|];
        consistent_after.
      * rewrite Hrq. cbn [List.length Z.of_nat].
        replace (p - 1 + 1 + 0) with (p - 1 + 0 + 0 + 1) by lia.
        rewrite count_up_next by lia. do 2 f_equal. lia.
      * now rewrite app_nil_r.
      * now rewrite app_nil_r.
    + (* the timer fires *)
      unfold Mock.timer_fired; cbn [Mock.inflight].
      destruct Hfl as [[-> ->]|(-> & -> & ->)]; [consistent_after|].
      rewrite simulateFetch_page by lia.
      unfold Mock.settle, Mock.fetchData_resume; cbn [Mock.inflight].
      set (result := firstn 5 _).
      destruct (Z.eqb_spec (Z.of_nat (List.length result)) 0) as [He|He].
      * consistent_after.
        rewrite Hrq. f_equal. cbn [List.length Z.of_nat]. lia.
      * assert (Hne : result <> []) by (intros E; apply He; now rewrite E).
        pose proof (page_not_empty p (proj1 Hp) Hne) as Hle.
        consistent_after.
        -- subst d. apply pages_before_next; lia.
        -- rewrite Hrq. f_equal. cbn [List.length Z.of_nat]. lia.
    + (* unmount *)
      consistent_after.
      * destruct Hfl as [[-> _]|(-> & _)]; simpl; lia.
      * rewrite Hrq. apply count_up_NoDup.
    + (* render *)
      consistent_after.
  - destruct Hw as [Hfl Hrq]. destruct e; cbn [Mock.step].
    + consistent_after.
    + unfold Mock.timer_fired; cbn [Mock.inflight].
      destruct fl as [|p fl]; [consistent_after|].
      unfold Mock.settle, Mock.simulateFetch, Mock.fetchData_resume;
        cbn [Mock.inflight].
      destruct (_ =? 0); consistent_after; simpl in Hfl; lia.
    + consistent_after.
    + consistent_after.
Qed.

Lemma run_consistent (es : list Mock.Event) (w : Mock.World) :
  Mock.consistent w -> Mock.consistent (Mock.run_rendered w es).
Proof.
  revert w; induction es as [|e es IH]; intros w Hw; [exact Hw|].
  simpl. apply IH, step_consistent, Hw.
Qed.

Lemma firstn_of_seq (n a len : nat) :
  firstn n (seq a len) = seq a (Nat.min n len).
Proof.
  revert a len; induction n as [|n IH]; intros a [|len]; simpl; trivial.
  now rewrite IH.
Qed.

Lemma Forall_of_firstn {A : Type} (P : A -> Prop) (n : nat) (l : list A) :
  Forall P l -> Forall P (firstn n l).
Proof.
  intros H; revert n; induction H as [|x l Hx _ IH]; intros [|n]; simpl;
    constructor; auto.
Qed.

Lemma MOCK_DATA_ids : map Mock.id Mock.MOCK_DATA = map Z.of_nat (seq 1 50).
Proof. reflexivity. Qed.

Lemma MOCK_DATA_titles :
  Forall (fun item => Mock.title item
                      = String.append "News " (number_to_string (Mock.id item)))
         Mock.MOCK_DATA.
Proof. repeat constructor. Qed.

(** Pages 1 to 10 hold five items each. *)
Lemma page_length (p : Z) :
  1 <= p <= 10 ->
  List.length
    (firstn 5 (skipn (Z.to_nat (Mock.PAGE_SIZE * (p - 1))) Mock.MOCK_DATA))
  = 5%nat.
Proof.
  intros Hp. rewrite length_firstn, length_skipn, MOCK_DATA_length.
  unfold Mock.PAGE_SIZE. lia.
Qed.

Lemma pages_before_length (p : Z) :
  1 <= p <= 11 ->
  Z.of_nat (List.length (Mock.pages_before p)) = Mock.PAGE_SIZE * (p - 1).
Proof.
  intros Hp. unfold Mock.pages_before.
  rewrite length_firstn, MOCK_DATA_length. unfold Mock.PAGE_SIZE. lia.
Qed.

(** One call carried to its end, on a page that exists. *)
Lemma round_at_page (p : Z) :
  1 <= p <= 10 -> Mock.round (Mock.at_page p) = Mock.at_page (p + 1).
Proof.
  intros Hp.
  unfold Mock.round, Mock.step_rendered, Mock.at_page. cbn [Mock.step].
  unfold Mock.invoke, Mock.fetchData_enter.
  cbn [Mock.view Mock.rendered Mock.loading Mock.hasMore orb negb Mock.page
       Mock.inflight Mock.request app Mock.console Mock.stray Mock.requests].
  unfold Mock.render at 2.
  cbn [Mock.view Mock.inflight Mock.console Mock.stray Mock.requests].
  unfold Mock.timer_fired. cbn [Mock.inflight].
  rewrite simulateFetch_page by lia.
  unfold Mock.settle, Mock.fetchData_resume. cbn [Mock.inflight].
  rewrite page_length by lia.
  cbn [Z.of_nat Z.eqb Pos.of_succ_nat Pos.succ Mock.view Mock.console
       Mock.stray Mock.requests Mock.rendered app].
  unfold Mock.render, Mock.apply_all.
  cbn [fold_left Mock.apply Mock.data Mock.page Mock.loading Mock.hasMore app
       Mock.view Mock.inflight Mock.console Mock.stray Mock.requests].
  rewrite pages_before_next by lia.
  replace (p + 1 - 1) with (p - 1 + 1) by lia.
  rewrite count_up_next by lia.
  now replace (p - 1 + 1) with p by lia.
Qed.

Lemma rounds_at_page (k : nat) :
  (k <= 10)%nat ->
  Mock.rounds k Mock.mounted = Mock.at_page (Z.of_nat k + 1).
Proof.
  induction k as [|k IH]; intros Hk; [reflexivity|].
  cbn [Mock.rounds]. rewrite IH by lia.
  rewrite round_at_page by lia. f_equal; lia.
Qed.

(** C1. From the initial state, each of the first ten fetchData calls
    carried to its end appends the five items of the current page and
    advances the page; after ten the list is all of MOCK_DATA (50 items);
    the eleventh gets an empty slice, sets hasMore to false and leaves
    data and page as they were, for good. *)
Theorem mock_ten_rounds_then_end :
  (forall k : nat, (k < 10)%nat ->
     exists s s' result,
       Mock.view (Mock.rounds k Mock.mounted) = Some s /\
       Mock.view (Mock.rounds (S k) Mock.mounted) = Some s' /\
       Mock.simulateFetch (Mock.page s) = Fulfilled result /\
       List.length result = 5%nat /\
       Mock.data s' = Mock.data s ++ result /\
       Mock.page s' = Mock.page s + 1 /\
       List.length (Mock.data s') = (5 * S k)%nat /\
       Mock.loading s' = false /\ Mock.hasMore s' = true) /\
  (exists s10 s11,
     Mock.view (Mock.rounds 10 Mock.mounted) = Some s10 /\
     Mock.data s10 = Mock.MOCK_DATA /\
     List.length (Mock.data s10) = 50%nat /\
     Mock.simulateFetch (Mock.page s10) = Fulfilled [] /\
     Mock.view (Mock.rounds 11 Mock.mounted) = Some s11 /\
     Mock.hasMore s11 = false /\
     Mock.data s11 = Mock.data s10 /\
     Mock.page s11 = Mock.page s10 /\
     Mock.requests (Mock.rounds 11 Mock.mounted) = Mock.count_up 11) /\
  (forall (es : list Mock.Event) (s : Mock.State),
     Mock.view (Mock.run (Mock.rounds 11 Mock.mounted) es) = Some s ->
     Mock.hasMore s = false /\ Mock.data s = Mock.MOCK_DATA /\ Mock.page s = 11).
Proof.
  split; [|split].
  - intros k Hk.
    exists (Mock.mkState (Mock.pages_before (Z.of_nat k + 1))
                         (Z.of_nat k + 1) false true),
           (Mock.mkState (Mock.pages_before (Z.of_nat k + 1 + 1))
                         (Z.of_nat k + 1 + 1) false true),
           (firstn 5 (skipn (Z.to_nat (Mock.PAGE_SIZE * (Z.of_nat k + 1 - 1)))
                            Mock.MOCK_DATA)).
    cbn [Mock.data Mock.page Mock.loading Mock.hasMore].
    repeat (rewrite rounds_at_page by lia).
    rewrite Nat2Z.inj_succ.
    replace (Z.succ (Z.of_nat k) + 1) with (Z.of_nat k + 1 + 1) by lia.
    split; [reflexivity|]. split; [reflexivity|].
    split; [apply simulateFetch_page; lia|].
    split; [apply page_length; lia|].
    split; [symmetry; apply pages_before_next; lia|].
    split; [reflexivity|].
    split; [|split; reflexivity].
    apply Nat2Z.inj. rewrite pages_before_length by lia.
    unfold Mock.PAGE_SIZE. lia.
  - exists (Mock.mkState Mock.MOCK_DATA 11 false true),
           (Mock.mkState Mock.MOCK_DATA 11 false false).
    repeat split; vm_compute; reflexivity.
  - assert (Hend : forall es w s,
               (Mock.view w = None \/
                (Mock.view w = Some (Mock.mkState Mock.MOCK_DATA 11 false false)
                 /\ Mock.rendered w = Mock.mkState Mock.MOCK_DATA 11 false false
                 /\ Mock.inflight w = [])) ->
               Mock.view (Mock.run w es) = Some s ->
               s = Mock.mkState Mock.MOCK_DATA 11 false false).
    { induction es as [|e es IH]; intros w s Hw Hs.
      - destruct Hw as [Hw|[Hw _]]; simpl in Hs; congruence.
      - simpl in Hs. apply IH in Hs; trivial.
        destruct w as [v r fl rq con st]; simpl in Hw.
        destruct Hw as [->|(-> & -> & ->)].
        + left. destruct e; simpl; trivial.
          unfold Mock.timer_fired, Mock.settle; simpl.
          destruct fl; simpl; trivial.
          now destruct (Mock.fetchData_resume _).
        + destruct e; simpl; [right|right|left|right];
            repeat split; reflexivity. }
    intros es s Hs. apply Hend in Hs.
    + subst s. repeat split.
    + right. repeat split; vm_compute; reflexivity.
Qed.

Lemma mock_ten_rounds_then_end_witness :
  (3 < 10)%nat /\
  (exists s s' result,
     Mock.view (Mock.rounds 3 Mock.mounted) = Some s /\
     Mock.view (Mock.rounds 4 Mock.mounted) = Some s' /\
     Mock.simulateFetch (Mock.page s) = Fulfilled result /\
     List.length result = 5%nat /\
     Mock.data s' = Mock.data s ++ result /\
     Mock.page s' = Mock.page s + 1 /\
     List.length (Mock.data s') = (5 * 4)%nat /\
     Mock.loading s' = false /\ Mock.hasMore s' = true) /\
  Mock.view (Mock.run (Mock.rounds 11 Mock.mounted) [Mock.EndReached])
  = Some (Mock.mkState Mock.MOCK_DATA 11 false false) /\
  Mock.page (Mock.mkState Mock.MOCK_DATA 11 false false) = 11.
Proof.
  assert (H3 : (3 < 10)%nat) by lia.
  assert (Hv : Mock.view (Mock.run (Mock.rounds 11 Mock.mounted)
                            [Mock.EndReached])
               = Some (Mock.mkState Mock.MOCK_DATA 11 false false))
    by (vm_compute; reflexivity).
  split; [exact H3|].
  split; [exact (proj1 mock_ten_rounds_then_end 3%nat H3)|].
  split; [exact Hv|].
  exact (proj2 (proj2 (proj2 (proj2 mock_ten_rounds_then_end)
                         [Mock.EndReached] _ Hv))).
Defined.

(** C7. If the awaited fetch of the mock screen throws, fetchData only
    writes a console line and, in its finally block, resets loading: data,
    page and hasMore stay as they were, so hasMore is not set to false and
    the next end-of-list call asks for the same page again. *)
Theorem mock_rejection_only_logs
  (reason : string) (s r : Mock.State) (p : Z) (rest rq : list Z)
  (con : list Console) (st : list Mock.Setter) :
  let w := {| Mock.view := Some s; Mock.rendered := r;
              Mock.inflight := p :: rest; Mock.requests := rq;
              Mock.console := con; Mock.stray := st |} in
  let w' := Mock.settle (Rejected reason) w in
  Mock.fetchData_resume (Rejected reason)
    = ([Mock.setLoading false],
       [console_error "Error fetching data: " reason]) /\
  Mock.view w'
    = Some {| Mock.data := Mock.data s; Mock.page := Mock.page s;
              Mock.loading := false; Mock.hasMore := Mock.hasMore s |} /\
  Mock.console w' = con ++ [console_error "Error fetching data: " reason] /\
  Mock.inflight w' = rest /\
  Mock.requests w' = rq /\
  Mock.stray w' = st /\
  (Mock.hasMore s = true ->
   Mock.inflight (Mock.invoke (Mock.render w')) = rest ++ [Mock.page s] /\
   Mock.requests (Mock.invoke (Mock.render w')) = rq ++ [Mock.page s]) /\
  (Mock.loading r = false -> Mock.hasMore r = true ->
   Mock.inflight (Mock.invoke w') = rest ++ [Mock.page r] /\
   Mock.requests (Mock.invoke w') = rq ++ [Mock.page r]).
Proof.
  cbn -[String.append]. do 6 (split; [reflexivity|]). split.
  - intros Hh. unfold Mock.invoke, Mock.fetchData_enter. cbn.
    rewrite Hh. now split.
  - intros Hl Hh. unfold Mock.invoke, Mock.fetchData_enter. cbn.
    rewrite Hl, Hh. now split.
Qed.

Lemma mock_rejection_only_logs_witness :
  let w := {| Mock.view := Some (Mock.mkState [] 1 true true);
              Mock.rendered := Mock.initial;
              Mock.inflight := [1]; Mock.requests := [1];
              Mock.console := []; Mock.stray := [] |} in
  let w' := Mock.settle (Rejected "timeout") w in
  Mock.hasMore (Mock.mkState [] 1 true true) = true /\
  Mock.loading Mock.initial = false /\ Mock.hasMore Mock.initial = true /\
  Mock.requests (Mock.invoke (Mock.render w')) = [1; 1] /\
  Mock.requests (Mock.invoke w') = [1; 1].
Proof.
  intros w w'.
  pose proof (mock_rejection_only_logs "timeout" (Mock.mkState [] 1 true true)
                Mock.initial 1 [] [1] [] [])
    as (_ & _ & _ & _ & _ & _ & Hrendered & Hstale).
  split; [reflexivity|]. split; [reflexivity|]. split; [reflexivity|].
  split.
  - exact (proj2 (Hrendered eq_refl)).
  - exact (proj2 (Hstale eq_refl eq_refl)).
Defined.

Lemma step_console (w : Mock.World) (e : Mock.Event) :
  Mock.console (Mock.step w e) = Mock.console w.
Proof.
  destruct e; cbn [Mock.step]; trivial.
  - unfold Mock.invoke. destruct (Mock.view w); trivial.
    now destruct (Mock.fetchData_enter _).
  - unfold Mock.timer_fired, Mock.settle, Mock.simulateFetch,
      Mock.fetchData_resume.
    destruct (Mock.inflight w); trivial.
    destruct (_ =? 0), (Mock.view w); cbn; apply app_nil_r.
  - unfold Mock.render. now destruct (Mock.view w).
Qed.

Lemma run_console (es : list Mock.Event) (w : Mock.World) :
  Mock.console (Mock.run w es) = Mock.console w.
Proof.
  revert w; induction es as [|e es IH]; intros w; [reflexivity|].
  change (Mock.run w (e :: es)) with (Mock.run (Mock.step w e) es).
  rewrite IH. apply step_console.
Qed.

(** C8. The catch block of the mock screen cannot be reached: for every
    page number simulateFetch resolves, with a slice of MOCK_DATA, and
    never rejects; so in every run of the screen no error line is ever
    written. *)
Theorem mock_catch_unreachable :
  (forall page : Z,
     Mock.simulateFetch page
     = Fulfilled (js_slice Mock.MOCK_DATA ((page - 1) * Mock.PAGE_SIZE)
                           ((page - 1) * Mock.PAGE_SIZE + Mock.PAGE_SIZE))) /\
  (forall (page : Z) (reason : string),
     Mock.simulateFetch page <> Rejected reason) /\
  (forall es : list Mock.Event,
     Mock.console (Mock.run Mock.mounted es) = []).
Proof.
  split; [reflexivity|]. split; [discriminate|].
  intros es. apply run_console.
Qed.

(** While the screen renders after every event, data is the pages before
    the current one. *)
Lemma rendered_data_is_prefix (es : list Mock.Event) (s : Mock.State) :
  Mock.view (Mock.run_rendered Mock.mounted es) = Some s ->
  1 <= Mock.page s <= 11 /\
  Mock.data s = Mock.pages_before (Mock.page s) /\
  map Mock.id (Mock.data s)
  = map Z.of_nat (seq 1 (List.length (Mock.data s))).
Proof.
  intros Hs.
  destruct (run_consistent es Mock.mounted mounted_consistent) as [_ Hw].
  rewrite Hs in Hw. destruct Hw as (_ & Hp & Hd & _).
  split; [exact Hp|]. split; [exact Hd|].
  rewrite Hd. unfold Mock.pages_before.
  rewrite <- firstn_map, MOCK_DATA_ids, firstn_map, firstn_of_seq.
  now rewrite length_firstn, MOCK_DATA_length.
Qed.

(** C9. The invariant does not hold of the code in every reachable
    state.  fetchData reads loading and page of the render that made it,
    so two end-of-list calls that come from one render both pass the
    guard and ask for the same page: here page 2 is asked for twice and
    appended twice, data has the ids 1..10 then 6..10 again and page is
    4.  The invariant does hold in every run in which the screen renders
    after each event. *)
Theorem mock_stale_call_appends_page_twice :
  (let w := Mock.run Mock.mounted
              [Mock.EndReached; Mock.Render; Mock.TimerFired; Mock.Render;
               Mock.EndReached; Mock.EndReached;
               Mock.TimerFired; Mock.TimerFired; Mock.Render] in
   exists s,
     Mock.view w = Some s /\
     Mock.requests w = [1; 2; 2] /\
     map Mock.id (Mock.data s)
     = [1; 2; 3; 4; 5; 6; 7; 8; 9; 10; 6; 7; 8; 9; 10] /\
     map Mock.title (Mock.data s)
     = ["News 1"; "News 2"; "News 3"; "News 4"; "News 5"; "News 6";
        "News 7"; "News 8"; "News 9"; "News 10"; "News 6"; "News 7";
        "News 8"; "News 9"; "News 10"] /\
     Mock.page s = 4 /\
     Mock.data s
     <> firstn (Z.to_nat (5 * (Mock.page s - 1))) Mock.MOCK_DATA /\
     ~ NoDup (map Mock.id (Mock.data s))) /\
  (forall (es : list Mock.Event) (s : Mock.State),
     Mock.view (Mock.run_rendered Mock.mounted es) = Some s ->
     Mock.data s
     = firstn (Z.to_nat (5 * (Mock.page s - 1))) Mock.MOCK_DATA /\
     Z.of_nat (List.length (Mock.data s)) = 5 * (Mock.page s - 1) /\
     map Mock.id (Mock.data s)
     = map Z.of_nat (seq 1 (List.length (Mock.data s))) /\
     NoDup (map Mock.id (Mock.data s)) /\
     Forall (fun item =>
               Mock.title item
               = String.append "News " (number_to_string (Mock.id item)))
            (Mock.data s)).
Proof.
  split.
  - eexists. split; [reflexivity|]. split; [reflexivity|].
    split; [reflexivity|]. split; [reflexivity|].
    split; [reflexivity|]. split.
    + intros E. apply (f_equal (map Mock.id)) in E. vm_compute in E.
      discriminate.
    + intros H. vm_compute in H.
      do 5 (apply NoDup_cons_iff in H; destruct H as [_ H]).
      apply NoDup_cons_iff in H. destruct H as [H _].
      apply H. do 4 right. now left.
  - intros es s Hs.
    destruct (rendered_data_is_prefix es s Hs) as (Hp & Hd & Hids).
    split; [exact Hd|]. split; [|split; [exact Hids|split]].
    + rewrite Hd. apply pages_before_length, Hp.
    + rewrite Hids. apply Injective_map_NoDup.
      * intros x y. apply Nat2Z.inj.
      * apply seq_NoDup.
    + rewrite Hd. apply Forall_of_firstn, MOCK_DATA_titles.
Qed.

Lemma mock_stale_call_appends_page_twice_witness :
  exists s,
    Mock.view (Mock.run_rendered Mock.mounted
                 [Mock.EndReached; Mock.TimerFired; Mock.EndReached]) = Some s /\
    map Mock.id (Mock.data s) = [1; 2; 3; 4; 5] /\
    map Mock.title (Mock.data s)
    = ["News 1"; "News 2"; "News 3"; "News 4"; "News 5"] /\
    Mock.data s = firstn (Z.to_nat (5 * (Mock.page s - 1))) Mock.MOCK_DATA.
Proof.
  eexists. split; [reflexivity|]. split; [reflexivity|].
  split; [reflexivity|].
  apply (proj2 mock_stale_call_appends_page_twice
           [Mock.EndReached; Mock.TimerFired; Mock.EndReached]).
  reflexivity.
Defined.

(** ** The remote screen *)

Lemma remote_loading_reset (s : Remote.State) (cs : list Remote.Setter) :
  Remote.loading (Remote.apply_all s (cs ++ [Remote.setLoading false])) = false.
Proof.
  unfold Remote.apply_all. now rewrite fold_left_app.
Qed.

Lemma remote_mounted_consistent : Remote.consistent Remote.mounted.
Proof. split; [reflexivity|]. left. split; reflexivity. Qed.

Lemma remote_step_consistent (w : Remote.World) (e : Remote.Event) :
  Remote.consistent w -> Remote.consistent (Remote.step_rendered w e).
Proof.
  unfold Remote.step_rendered.
  destruct w as [[s|] r fl rq con st]; unfold Remote.consistent;
    cbn [Remote.view Remote.inflight Remote.rendered]; intros Hw.
  - destruct Hw as [-> Hw].
    destruct e as [|o| |]; cbn [Remote.step].
    + unfold Remote.invoke, Remote.fetchData_enter;
        cbn [Remote.view Remote.rendered].
      destruct Hw as [[-> Hl]|(-> & Hl & Hh)]; rewrite Hl; cbn [orb].
      * destruct (Remote.hasMore s) eqn:Hh; cbn -[String.append];
          (split; [reflexivity|]); [right|left]; repeat split; assumption.
      * cbn -[String.append]. split; [reflexivity|].
        right. repeat split; assumption.
    + unfold Remote.settles; cbn [Remote.inflight Remote.view].
      destruct Hw as [[-> Hl]|(-> & Hl & Hh)].
      * cbn. split; [reflexivity|]. left. split; [reflexivity|exact Hl].
      * unfold Remote.fetchData_resume.
        destruct (match o with Fulfilled _ => _ | Rejected _ => _ end)
          as [cs|reason]; cbn -[String.append Remote.apply_all];
          (split; [reflexivity|]); left;
          (split; [reflexivity|]);
          [apply remote_loading_reset|reflexivity].
    + cbn. destruct Hw as [[-> _]|(-> & _)]; simpl; lia.
    + cbn -[String.append]. split; [reflexivity|exact Hw].
  - destruct e as [|o| |]; cbn [Remote.step]; trivial.
    unfold Remote.settles; cbn [Remote.inflight Remote.view].
    destruct fl as [|url fl]; trivial.
    destruct (Remote.fetchData_resume o) as [cs out].
    cbn [Remote.render Remote.view Remote.inflight]. simpl in Hw. lia.
Qed.

Lemma remote_run_consistent (es : list Remote.Event) (w : Remote.World) :
  Remote.consistent w -> Remote.consistent (Remote.run_rendered w es).
Proof.
  revert w; induction es as [|e es IH]; intros w Hw; [exact Hw|].
  simpl. apply IH, remote_step_consistent, Hw.
Qed.

Lemma remote_enter_writes_false (s : Remote.State) :
  Remote.writes_false (fst (Remote.fetchData_enter s)).
Proof.
  unfold Remote.fetchData_enter. intros b.
  destruct (_ || _); cbn; intuition discriminate.
Qed.

Lemma remote_resume_writes_false (o : Settled Remote.Response) :
  Remote.writes_false (fst (Remote.fetchData_resume o)).
Proof.
  intros b.
  destruct o as [[[[|[| |items]]|r]]|r];
    unfold Remote.fetchData_resume, Remote.on_json; cbn;
    try destruct (0 <? _); cbn; intuition congruence.
Qed.

Lemma remote_apply_all_hasMore (cs : list Remote.Setter) (s : Remote.State) :
  Remote.writes_false cs ->
  Remote.hasMore s = false ->
  Remote.hasMore (Remote.apply_all s cs) = false.
Proof.
  revert s; induction cs as [|c cs IH]; intros s Hcs Hs; [exact Hs|].
  cbn. apply IH.
  - intros b Hb. apply Hcs. now right.
  - destruct c as [articles|b|b]; cbn; trivial.
    apply Hcs. now left.
Qed.

(** Once fetching has stopped, no event makes the remote screen issue a
    GET, and fetching stays stopped. *)
Lemma remote_stopped_step (w : Remote.World) (e : Remote.Event) :
  Remote.stopped w ->
  Remote.stopped (Remote.step w e) /\
  Remote.requests (Remote.step w e) = Remote.requests w.
Proof.
  destruct w as [[s|] r fl rq con st]; unfold Remote.stopped;
    cbn [Remote.view Remote.rendered]; intros Hw.
  - destruct Hw as [Hs Hr].
    destruct e as [|o| |]; cbn [Remote.step].
    + unfold Remote.invoke, Remote.fetchData_enter;
        cbn [Remote.view Remote.rendered].
      rewrite Hr, orb_true_r. cbn. split; [now split|apply app_nil_r].
    + unfold Remote.settles; cbn [Remote.inflight Remote.view].
      destruct fl as [|url fl]; [now split|].
      pose proof (remote_resume_writes_false o) as Ho.
      destruct (Remote.fetchData_resume o) as [cs out].
      cbn [Remote.view Remote.requests Remote.rendered]. split; trivial.
      split; [now apply remote_apply_all_hasMore|exact Hr].
    + now split.
    + cbn. now split.
  - destruct e as [|o| |]; cbn [Remote.step]; try now split.
    unfold Remote.settles; cbn [Remote.inflight Remote.view].
    destruct fl as [|url fl]; [now split|].
    destruct (Remote.fetchData_resume o) as [cs out]. now split.
Qed.

Lemma remote_stopped_run (es : list Remote.Event) (w : Remote.World) :
  Remote.stopped w ->
  Remote.stopped (Remote.run w es) /\
  Remote.requests (Remote.run w es) = Remote.requests w.
Proof.
  revert w; induction es as [|e es IH]; intros w Hw; [now split|].
  destruct (remote_stopped_step w e Hw) as [Hs Hr].
  destruct (IH _ Hs) as [Hs' Hr'].
  change (Remote.run w (e :: es)) with (Remote.run (Remote.step w e) es).
  split; [exact Hs'|congruence].
Qed.

(** C2. When the single GET to BACKEND_URL/top-news returns a body that
    parses to { articles: [{title:"A"}, {title:"B"}] }, then once
    fetchData is over data is those two articles, shown as two rows
    titled A and B, and hasMore is false; whatever happens next, a call
    of fetchData returns at its guard and no other GET is issued. *)
Theorem remote_two_articles :
  let a := {| Remote.title := Some "A"; Remote.summary := None;
              Remote.content := None |} in
  let b := {| Remote.title := Some "B"; Remote.summary := None;
              Remote.content := None |} in
  let url := String.append Remote.BACKEND_URL "/top-news" in
  let response :=
    Remote.body (Remote.json_object (Remote.articles_array [a; b])) in
  let w := Remote.run_rendered Remote.mounted
             [Remote.EndReached; Remote.Settles response] in
  Remote.view w
    = Some {| Remote.data := [a; b]; Remote.loading := false;
              Remote.hasMore := false |} /\
  option_map (fun s => map Remote.row_title (Remote.rows s)) (Remote.view w)
    = Some [Some "A"; Some "B"] /\
  Remote.requests w = [url] /\
  Remote.inflight w = [] /\
  Remote.invoke w = w /\
  (forall es : list Remote.Event,
     Remote.requests (Remote.run w es) = [url]).
Proof.
  intros a b url response w.
  repeat split.
  intros es. now apply remote_stopped_run.
Qed.

(** C3, as the specification states it, fails: after a body that does not
    parse, data is empty but hasMore is still true, unlike after an empty
    articles array. *)
Lemma remote_error_keeps_hasMore :
  Remote.view (Remote.run_rendered Remote.mounted
                 [Remote.EndReached;
                  Remote.Settles (Remote.unparsable "SyntaxError")])
  = Some {| Remote.data := []; Remote.loading := false;
            Remote.hasMore := true |} /\
  Remote.view (Remote.run_rendered Remote.mounted
                 [Remote.EndReached;
                  Remote.Settles
                    (Remote.body
                       (Remote.json_object (Remote.articles_array [])))])
  = Some {| Remote.data := []; Remote.loading := false;
            Remote.hasMore := false |}.
Proof. split; reflexivity. Qed.

(** C3, amended. On the remote screen an empty articles array and an
    error both leave zero rows, but only the empty array sets hasMore to
    false and stops fetching; after a rejected fetch, a body that does
    not parse or a null body, hasMore is still true, an error line is
    written, and the next end-of-list call issues the GET again. *)
Theorem remote_empty_stops_error_does_not :
  let url := String.append Remote.BACKEND_URL "/top-news" in
  let after o :=
    Remote.run_rendered Remote.mounted
      [Remote.EndReached; Remote.Settles o] in
  (let w := after (Remote.body (Remote.json_object (Remote.articles_array []))) in
   Remote.view w
     = Some {| Remote.data := []; Remote.loading := false;
               Remote.hasMore := false |} /\
   option_map Remote.rows (Remote.view w) = Some [] /\
   Remote.console w = [] /\
   forall es, Remote.requests (Remote.run w es) = [url]) /\
  (forall o : Settled Remote.Response,
     Remote.throws o ->
     let w := after o in
     Remote.view w
       = Some {| Remote.data := []; Remote.loading := false;
                 Remote.hasMore := true |} /\
     option_map Remote.rows (Remote.view w) = Some [] /\
     (exists reason,
        Remote.console w = [console_error "Error fetching news:" reason]) /\
     Remote.requests (Remote.step w Remote.EndReached) = [url; url]).
Proof.
  intros url after. split.
  - repeat split. intros es. now apply remote_stopped_run.
  - intros o [[reason ->]|[[reason ->]| ->]]; cbn -[String.append];
      repeat split; eexists; reflexivity.
Qed.

Lemma remote_empty_stops_error_does_not_witness :
  Remote.throws (Rejected "Network request failed") /\
  Remote.requests
    (Remote.run_rendered Remote.mounted
       [Remote.EndReached; Remote.Settles (Rejected "Network request failed");
        Remote.EndReached])
  = [String.append Remote.BACKEND_URL "/top-news";
     String.append Remote.BACKEND_URL "/top-news"].
Proof.
  assert (H : Remote.throws (Rejected "Network request failed"))
    by (left; eexists; reflexivity).
  split; [exact H|].
  apply (proj2 remote_empty_stops_error_does_not
           (Rejected "Network request failed") H).
Defined.

(** C5, as the specification states it, fails: an article whose summary
    is present but empty shows its content, not its summary. *)
Lemma body_of_empty_summary :
  let item := {| Remote.title := Some "T"; Remote.summary := Some "";
                 Remote.content := Some "C" |} in
  Remote.summary item <> None /\
  Remote.row_body (Remote.renderItem item 0) = Some "C" /\
  Remote.row_body (Remote.renderItem item 0) <> Remote.summary item.
Proof. cbn. repeat split; discriminate. Qed.

(** C5, amended. The body text of a row is the summary of its item when
    that is present and not empty, and the content of the item otherwise;
    it is undefined when the summary is absent or empty and there is no
    content. *)
Theorem body_is_summary_or_content (item : Remote.Article) (index : nat) :
  let shown := Remote.row_body (Remote.renderItem item index) in
  (forall text : string,
     Remote.summary item = Some text -> text <> "" -> shown = Some text) /\
  (Remote.summary item = None \/ Remote.summary item = Some "" ->
   shown = Remote.content item) /\
  (Remote.summary item = None -> Remote.content item = None -> shown = None).
Proof.
  cbn. unfold Remote.truthy. repeat split.
  - intros text -> Hne. now destruct (String.eqb_spec text "").
  - now intros [-> | ->].
  - now intros -> ->.
Qed.

Lemma body_is_summary_or_content_witness :
  let full := {| Remote.title := Some "T"; Remote.summary := Some "S";
                 Remote.content := Some "C" |} in
  let blank := {| Remote.title := Some "T"; Remote.summary := Some "";
                  Remote.content := Some "C" |} in
  let bare := {| Remote.title := Some "T"; Remote.summary := None;
                 Remote.content := None |} in
  (Remote.summary full = Some "S" /\ "S" <> "" /\
   Remote.row_body (Remote.renderItem full 0) = Some "S") /\
  ((Remote.summary blank = None \/ Remote.summary blank = Some "") /\
   Remote.row_body (Remote.renderItem blank 1) = Some "C") /\
  (Remote.summary bare = None /\ Remote.content bare = None /\
   Remote.row_body (Remote.renderItem bare 2) = None).
Proof.
  intros full blank bare.
  assert (Hne : "S" <> "") by discriminate.
  assert (Hb : Remote.summary blank = None \/ Remote.summary blank = Some "")
    by (right; reflexivity).
  split; [|split].
  - split; [reflexivity|]. split; [exact Hne|].
    exact (proj1 (body_is_summary_or_content full 0%nat) "S" eq_refl Hne).
  - split; [exact Hb|].
    exact (proj1 (proj2 (body_is_summary_or_content blank 1%nat)) Hb).
  - split; [reflexivity|]. split; [reflexivity|].
    exact (proj2 (proj2 (body_is_summary_or_content bare 2%nat))
                 eq_refl eq_refl).
Defined.

(** ** Both screens *)

Lemma mock_enter_writes_false (s : Mock.State) :
  Mock.writes_false (fst (Mock.fetchData_enter s)).
Proof.
  unfold Mock.fetchData_enter. intros b.
  destruct (_ || _); cbn; intuition discriminate.
Qed.

Lemma mock_resume_writes_false (o : Settled (list Mock.Item)) :
  Mock.writes_false (fst (Mock.fetchData_resume o)).
Proof.
  intros b. unfold Mock.fetchData_resume.
  destruct o as [result|reason]; [destruct (_ =? 0)|]; cbn;
    intuition congruence.
Qed.

Lemma mock_apply_all_hasMore (cs : list Mock.Setter) (s : Mock.State) :
  Mock.writes_false cs ->
  Mock.hasMore s = false ->
  Mock.hasMore (Mock.apply_all s cs) = false.
Proof.
  revert s; induction cs as [|c cs IH]; intros s Hcs Hs; [exact Hs|].
  cbn. apply IH.
  - intros b Hb. apply Hcs. now right.
  - destruct c as [result| |b|b]; cbn; trivial.
    apply Hcs. now left.
Qed.

Lemma mock_settle_stopped (o : Settled (list Mock.Item)) (w : Mock.World) :
  Mock.stopped w ->
  Mock.stopped (Mock.settle o w) /\
  Mock.requests (Mock.settle o w) = Mock.requests w.
Proof.
  destruct w as [[s|] r fl rq con st]; unfold Mock.stopped, Mock.settle;
    cbn [Mock.view Mock.inflight Mock.rendered]; intros Hw;
    (destruct fl as [|p fl]; [now split|]);
    pose proof (mock_resume_writes_false o) as Ho;
    destruct (Mock.fetchData_resume o) as [cs out];
    cbn [Mock.view Mock.requests Mock.rendered]; split; trivial.
  destruct Hw as [Hs Hr]. split; [now apply mock_apply_all_hasMore|exact Hr].
Qed.

(** Once fetching has stopped, no event makes the mock screen call
    simulateFetch, and fetching stays stopped. *)
Lemma mock_stopped_step (w : Mock.World) (e : Mock.Event) :
  Mock.stopped w ->
  Mock.stopped (Mock.step w e) /\
  Mock.requests (Mock.step w e) = Mock.requests w.
Proof.
  intros Hw. destruct e; cbn [Mock.step].
  - destruct w as [[s|] r fl rq con st]; unfold Mock.stopped in *;
      cbn [Mock.view Mock.rendered] in *; [|now split].
    destruct Hw as [Hs Hr].
    unfold Mock.invoke, Mock.fetchData_enter; cbn [Mock.view Mock.rendered].
    rewrite Hr, orb_true_r. cbn. split; [now split|apply app_nil_r].
  - unfold Mock.timer_fired.
    destruct (Mock.inflight w) as [|p fl] eqn:Hfl; [now split|].
    now apply mock_settle_stopped.
  - now split.
  - destruct w as [[s|] r fl rq con st]; unfold Mock.stopped in *;
      cbn [Mock.view Mock.rendered] in *; [|now split].
    cbn. destruct Hw as [Hs _]. now split.
Qed.

Lemma mock_stopped_run (es : list Mock.Event) (w : Mock.World) :
  Mock.stopped w ->
  Mock.stopped (Mock.run w es) /\
  Mock.requests (Mock.run w es) = Mock.requests w.
Proof.
  revert w; induction es as [|e es IH]; intros w Hw; [now split|].
  destruct (mock_stopped_step w e Hw) as [Hs Hr].
  destruct (IH _ Hs) as [Hs' Hr'].
  change (Mock.run w (e :: es)) with (Mock.run (Mock.step w e) es).
  split; [exact Hs'|congruence].
Qed.

(** At most one call is pending, and no page is asked for twice, as long
    as the screen renders after every event. *)
Lemma rendered_one_pending (es : list Mock.Event) :
  (List.length (Mock.inflight (Mock.run_rendered Mock.mounted es)) <= 1)%nat /\
  NoDup (Mock.requests (Mock.run_rendered Mock.mounted es)).
Proof.
  destruct (run_consistent es Mock.mounted mounted_consistent) as [_ Hw].
  destruct (Mock.view _) as [s|].
  - destruct Hw as (_ & _ & _ & Hfl & ->).
    split; [|apply count_up_NoDup].
    destruct Hfl as [[-> _]|(-> & _)]; simpl; lia.
  - exact Hw.
Qed.

Lemma remote_rendered_one_pending (es : list Remote.Event) :
  (List.length (Remote.inflight (Remote.run_rendered Remote.mounted es))
   <= 1)%nat.
Proof.
  pose proof (remote_run_consistent es Remote.mounted
                remote_mounted_consistent) as Hw.
  unfold Remote.consistent in Hw. destruct (Remote.view _) as [s|].
  - destruct Hw as [_ [[-> _]|(-> & _)]]; simpl; lia.
  - exact Hw.
Qed.

(** C4. The guard does not keep a second fetch from being launched while
    one is pending.  It returns without a fetch and without a change when
    loading is true or hasMore is false in the render that made
    fetchData; but a call that comes before the next render still reads
    loading as false.  Two calls from the first render both pass: the
    mock screen asks for page 1 twice and appends it twice, the remote
    screen has two GETs pending.  No second fetch is launched in a run in
    which the screen renders after each event. *)
Theorem stale_guard_launches_second_fetch :
  (let w := Mock.run Mock.mounted [Mock.EndReached; Mock.EndReached] in
   let w' := Mock.run w [Mock.TimerFired; Mock.TimerFired] in
   option_map Mock.loading (Mock.view (Mock.run Mock.mounted [Mock.EndReached]))
   = Some true /\
   Mock.inflight w = [1; 1] /\ Mock.requests w = [1; 1] /\
   option_map (fun s => map Mock.id (Mock.data s)) (Mock.view w')
   = Some [1; 2; 3; 4; 5; 1; 2; 3; 4; 5]) /\
  (let url := String.append Remote.BACKEND_URL "/top-news" in
   let w := Remote.run Remote.mounted [Remote.EndReached; Remote.EndReached] in
   option_map Remote.loading
     (Remote.view (Remote.run Remote.mounted [Remote.EndReached]))
   = Some true /\
   Remote.inflight w = [url; url] /\ Remote.requests w = [url; url]) /\
  (forall (w : Mock.World) (s : Mock.State),
     Mock.view w = Some s ->
     Mock.loading (Mock.rendered w) = true
     \/ Mock.hasMore (Mock.rendered w) = false ->
     Mock.fetchData_enter (Mock.rendered w) = ([], None) /\
     Mock.invoke w = w) /\
  (forall (w : Remote.World) (s : Remote.State),
     Remote.view w = Some s ->
     Remote.loading (Remote.rendered w) = true
     \/ Remote.hasMore (Remote.rendered w) = false ->
     Remote.fetchData_enter (Remote.rendered w) = ([], None) /\
     Remote.invoke w = w) /\
  (forall es : list Mock.Event,
     (List.length (Mock.inflight (Mock.run_rendered Mock.mounted es))
      <= 1)%nat /\
     NoDup (Mock.requests (Mock.run_rendered Mock.mounted es))) /\
  (forall es : list Remote.Event,
     (List.length (Remote.inflight (Remote.run_rendered Remote.mounted es))
      <= 1)%nat).
Proof.
  split; [|split; [|split; [|split; [|split]]]].
  - repeat split; vm_compute; reflexivity.
  - repeat split.
  - intros w s Hs Hr.
    assert (Hg : Mock.loading (Mock.rendered w)
                 || negb (Mock.hasMore (Mock.rendered w)) = true)
      by (destruct Hr as [-> | ->]; [reflexivity|apply orb_true_r]).
    unfold Mock.invoke, Mock.fetchData_enter. rewrite Hg, Hs.
    split; [reflexivity|].
    destruct w as [v r fl rq con st]; cbn in *. subst v.
    now rewrite !app_nil_r.
  - intros w s Hs Hr.
    assert (Hg : Remote.loading (Remote.rendered w)
                 || negb (Remote.hasMore (Remote.rendered w)) = true)
      by (destruct Hr as [-> | ->]; [reflexivity|apply orb_true_r]).
    unfold Remote.invoke, Remote.fetchData_enter. rewrite Hg, Hs.
    split; [reflexivity|].
    destruct w as [v r fl rq con st]; cbn in *. subst v.
    now rewrite !app_nil_r.
  - apply rendered_one_pending.
  - apply remote_rendered_one_pending.
Qed.

Lemma stale_guard_launches_second_fetch_witness :
  let busy := {| Mock.data := []; Mock.page := 1;
                 Mock.loading := true; Mock.hasMore := true |} in
  let w := {| Mock.view := Some busy; Mock.rendered := busy;
              Mock.inflight := [1]; Mock.requests := [1];
              Mock.console := []; Mock.stray := [] |} in
  let done := {| Remote.data := []; Remote.loading := false;
                 Remote.hasMore := false |} in
  let w' := {| Remote.view := Some done; Remote.rendered := done;
               Remote.inflight := [];
               Remote.requests := [String.append Remote.BACKEND_URL "/top-news"];
               Remote.console := []; Remote.stray := [] |} in
  (Mock.loading (Mock.rendered w) = true
   \/ Mock.hasMore (Mock.rendered w) = false) /\
  Mock.invoke w = w /\
  (Remote.loading (Remote.rendered w') = true
   \/ Remote.hasMore (Remote.rendered w') = false) /\
  Remote.invoke w' = w'.
Proof.
  intros busy w done w'.
  assert (Hb : Mock.loading (Mock.rendered w) = true
               \/ Mock.hasMore (Mock.rendered w) = false)
    by (left; reflexivity).
  assert (Hd : Remote.loading (Remote.rendered w') = true
               \/ Remote.hasMore (Remote.rendered w') = false)
    by (right; reflexivity).
  pose proof stale_guard_launches_second_fetch
    as (_ & _ & Hmock & Hremote & _).
  split; [exact Hb|].
  split; [exact (proj2 (Hmock w busy eq_refl Hb))|].
  split; [exact Hd|].
  exact (proj2 (Hremote w' done eq_refl Hd)).
Defined.

(** C6, as the specification states it, fails on the remote screen: a
    response can be received and fetching resume.  Here the response
    arrives but its body does not parse; hasMore is still true and the
    next end-of-list call issues a second GET. *)
Lemma remote_resumes_after_response :
  let url := String.append Remote.BACKEND_URL "/top-news" in
  let response := {| Remote.json := Rejected "SyntaxError" |} in
  let w := Remote.run_rendered Remote.mounted
             [Remote.EndReached; Remote.Settles (Fulfilled response)] in
  option_map Remote.hasMore (Remote.view w) = Some true /\
  Remote.requests w = [url] /\
  Remote.requests (Remote.run w [Remote.EndReached]) = [url; url].
Proof. repeat split. Qed.

(** C6, amended. On both screens every assignment to hasMore writes
    false, so once hasMore is false it stays false, and once the screen
    has rendered it false no fetch is ever launched again.  hasMore
    becomes false when a fetch returns zero items (mock) or when a
    response is received whose body parses to an object (remote).  A
    rejected fetch, a body that does not parse and a null body leave
    hasMore as it was: if it was true, the next call after a render
    issues the GET again. *)
Theorem hasMore_only_falls :
  (forall (s : Mock.State) (o : Settled (list Mock.Item)),
     Mock.writes_false (fst (Mock.fetchData_enter s)) /\
     Mock.writes_false (fst (Mock.fetchData_resume o))) /\
  (forall (s : Remote.State) (o : Settled Remote.Response),
     Remote.writes_false (fst (Remote.fetchData_enter s)) /\
     Remote.writes_false (fst (Remote.fetchData_resume o))) /\
  (forall (w : Mock.World) (es : list Mock.Event),
     Mock.stopped w ->
     Mock.stopped (Mock.run w es) /\
     Mock.requests (Mock.run w es) = Mock.requests w) /\
  (forall (w : Remote.World) (es : list Remote.Event),
     Remote.stopped w ->
     Remote.stopped (Remote.run w es) /\
     Remote.requests (Remote.run w es) = Remote.requests w) /\
  (forall (w : Mock.World) (s : Mock.State) (p : Z) (rest : list Z),
     Mock.view w = Some s -> Mock.inflight w = p :: rest ->
     option_map Mock.hasMore (Mock.view (Mock.settle (Fulfilled []) w))
     = Some false /\
     Mock.stopped (Mock.render (Mock.settle (Fulfilled []) w))) /\
  (forall (w : Remote.World) (s : Remote.State) (url : string)
          (rest : list string) (articles : Remote.Articles),
     Remote.view w = Some s -> Remote.inflight w = url :: rest ->
     let w' := Remote.settles (Remote.body (Remote.json_object articles)) w in
     option_map Remote.hasMore (Remote.view w') = Some false /\
     Remote.stopped (Remote.render w')) /\
  (forall (w : Remote.World) (s : Remote.State) (url : string)
          (rest : list string) (o : Settled Remote.Response),
     Remote.throws o ->
     Remote.view w = Some s -> Remote.inflight w = url :: rest ->
     let w' := Remote.settles o w in
     Remote.view w'
     = Some {| Remote.data := Remote.data s; Remote.loading := false;
               Remote.hasMore := Remote.hasMore s |} /\
     (Remote.hasMore s = true ->
      Remote.requests (Remote.invoke (Remote.render w'))
      = Remote.requests w ++ [String.append Remote.BACKEND_URL "/top-news"])).
Proof.
  split; [|split; [|split; [|split; [|split; [|split]]]]].
  - intros s o. split;
      [apply mock_enter_writes_false | apply mock_resume_writes_false].
  - intros s o. split;
      [apply remote_enter_writes_false | apply remote_resume_writes_false].
  - intros w es. apply mock_stopped_run.
  - intros w es. apply remote_stopped_run.
  - intros [v r fl rq con st] s p rest; cbn. intros -> ->. now split.
  - intros [v r fl rq con st] s url rest articles; cbn. intros -> ->.
    unfold Remote.settles, Remote.fetchData_resume, Remote.on_json; cbn.
    destruct articles as [| |items]; [now split|now split|].
    destruct (0 <? _); now split.
  - intros [v r fl rq con st] s url rest o Ho; cbn [Remote.view Remote.inflight].
    intros -> ->.
    destruct Ho as [[reason ->]|[[reason ->]| ->]]; cbn -[String.append];
      (split; [reflexivity|]); intros Hh;
      unfold Remote.invoke, Remote.fetchData_enter; cbn -[String.append];
      now rewrite Hh.
Qed.

Lemma hasMore_only_falls_witness :
  let url := String.append Remote.BACKEND_URL "/top-news" in
  let busy := {| Remote.data := []; Remote.loading := true;
                 Remote.hasMore := true |} in
  let w := {| Remote.view := Some busy; Remote.rendered := busy;
              Remote.inflight := [url]; Remote.requests := [url];
              Remote.console := []; Remote.stray := [] |} in
  let w' := Remote.render
              (Remote.settles
                 (Remote.body (Remote.json_object Remote.articles_undefined))
                 w) in
  let last := {| Mock.data := Mock.MOCK_DATA; Mock.page := 11;
                 Mock.loading := true; Mock.hasMore := true |} in
  let m := {| Mock.view := Some last; Mock.rendered := last;
              Mock.inflight := [11]; Mock.requests := Mock.count_up 11;
              Mock.console := []; Mock.stray := [] |} in
  let m' := Mock.render (Mock.settle (Fulfilled []) m) in
  Remote.stopped w' /\
  Remote.requests (Remote.run w' [Remote.EndReached; Remote.EndReached])
  = Remote.requests w' /\
  Mock.stopped m' /\
  Mock.requests (Mock.run m' [Mock.EndReached; Mock.TimerFired])
  = Mock.requests m' /\
  Remote.throws (Remote.body Remote.json_null) /\
  Remote.hasMore busy = true /\
  Remote.requests
    (Remote.invoke (Remote.render
                      (Remote.settles (Remote.body Remote.json_null) w)))
  = [url; url].
Proof.
  intros url busy w w' last m m'.
  pose proof hasMore_only_falls
    as (_ & _ & Hmock & Hremote & Hzero & Hbody & Hthrows).
  assert (Hs : Remote.stopped w')
    by exact (proj2 (Hbody w busy url [] Remote.articles_undefined
                       eq_refl eq_refl)).
  assert (Hm : Mock.stopped m')
    by exact (proj2 (Hzero m last 11 [] eq_refl eq_refl)).
  assert (Ht : Remote.throws (Remote.body Remote.json_null))
    by (right; right; reflexivity).
  split; [exact Hs|].
  split; [exact (proj2 (Hremote w' [Remote.EndReached; Remote.EndReached] Hs))|].
  split; [exact Hm|].
  split; [exact (proj2 (Hmock m' [Mock.EndReached; Mock.TimerFired] Hm))|].
  split; [exact Ht|]. split; [reflexivity|].
  exact (proj2 (Hthrows w busy url [] _ Ht eq_refl eq_refl) eq_refl).
Defined.

(** C10, as the specification states it, fails: unmounting while a fetch
    is pending does not keep fetchData from calling its setters when the
    fetch is over. *)
Lemma setters_called_after_unmount :
  In (Mock.setLoading false)
     (Mock.stray (Mock.run Mock.mounted
                    [Mock.EndReached; Mock.Unmount; Mock.TimerFired])) /\
  Mock.stray (Mock.run Mock.mounted
                [Mock.EndReached; Mock.Unmount; Mock.TimerFired]) <> [] /\
  Remote.stray (Remote.run Remote.mounted
                  [Remote.EndReached; Remote.Unmount;
                   Remote.Settles
                     (Remote.body
                        (Remote.json_object (Remote.articles_array [])))])
  = [Remote.setHasMore false; Remote.setLoading false].
Proof.
  split; [|split].
  - vm_compute. tauto.
  - vm_compute. discriminate.
  - reflexivity.
Qed.

(** C10, amended. Unmounting either screen while a fetch is pending does
    not cancel it, and fetchData has no guard for it: when the fetch is
    over, fetchData issues the same setter calls as on a mounted screen,
    always ending with setLoading(false). *)
Theorem unmount_does_not_cancel :
  (forall w : Mock.World,
     Mock.view (Mock.unmount w) = None /\
     Mock.inflight (Mock.unmount w) = Mock.inflight w) /\
  (forall w : Remote.World,
     Remote.view (Remote.unmount w) = None /\
     Remote.inflight (Remote.unmount w) = Remote.inflight w) /\
  (forall (w : Mock.World) (p : Z) (rest : list Z),
     Mock.inflight w = p :: rest ->
     let cs := fst (Mock.fetchData_resume (Mock.simulateFetch p)) in
     In (Mock.setLoading false) cs /\
     match Mock.view w with
     | Some s =>
         Mock.view (Mock.timer_fired w) = Some (Mock.apply_all s cs) /\
         Mock.stray (Mock.timer_fired w) = Mock.stray w
     | None =>
         Mock.view (Mock.timer_fired w) = None /\
         Mock.stray (Mock.timer_fired w) = Mock.stray w ++ cs
     end) /\
  (forall (w : Remote.World) (o : Settled Remote.Response) (url : string)
          (rest : list string),
     Remote.inflight w = url :: rest ->
     let cs := fst (Remote.fetchData_resume o) in
     In (Remote.setLoading false) cs /\
     match Remote.view w with
     | Some s =>
         Remote.view (Remote.settles o w) = Some (Remote.apply_all s cs) /\
         Remote.stray (Remote.settles o w) = Remote.stray w
     | None =>
         Remote.view (Remote.settles o w) = None /\
         Remote.stray (Remote.settles o w) = Remote.stray w ++ cs
     end).
Proof.
  split; [|split; [|split]].
  - now intros w.
  - now intros w.
  - intros [v r fl rq con st] p rest; cbn [Mock.inflight]; intros ->.
    unfold Mock.timer_fired, Mock.settle; cbn [Mock.inflight Mock.view Mock.stray].
    destruct (Mock.fetchData_resume (Mock.simulateFetch p)) as [cs out] eqn:Hr.
    cbn [fst]. split.
    + unfold Mock.fetchData_resume in Hr.
      destruct (match Mock.simulateFetch p with
                | Fulfilled _ => _ | Rejected _ => _ end) as [cs' out'].
      injection Hr as <- _. apply in_or_app. right. now left.
    + now destruct v.
  - intros [v r fl rq con st] o url rest; cbn [Remote.inflight]; intros ->.
    unfold Remote.settles; cbn [Remote.inflight Remote.view Remote.stray].
    destruct (Remote.fetchData_resume o) as [cs out] eqn:Hr.
    cbn [fst]. split.
    + unfold Remote.fetchData_resume in Hr.
      destruct (match match o with
                      | Fulfilled _ => _ | Rejected _ => _ end with
                | Fulfilled _ => _ | Rejected _ => _ end) as [cs' out'].
      injection Hr as <- _. apply in_or_app. right. now left.
    + now destruct v.
Qed.

Lemma unmount_does_not_cancel_witness :
  let w := Mock.run Mock.mounted [Mock.EndReached; Mock.Unmount] in
  let r := Remote.run Remote.mounted [Remote.EndReached; Remote.Unmount] in
  let o := Remote.unparsable "SyntaxError" in
  let url := String.append Remote.BACKEND_URL "/top-news" in
  Mock.inflight w = [1] /\
  Mock.view (Mock.timer_fired w) = None /\
  Mock.stray (Mock.timer_fired w)
  = Mock.stray w ++ fst (Mock.fetchData_resume (Mock.simulateFetch 1)) /\
  Remote.inflight r = [url] /\
  Remote.view (Remote.settles o r) = None /\
  Remote.stray (Remote.settles o r)
  = Remote.stray r ++ fst (Remote.fetchData_resume o).
Proof.
  intros w r o url.
  pose proof unmount_does_not_cancel as (_ & _ & Hmock & Hremote).
  split; [reflexivity|].
  split; [exact (proj1 (proj2 (Hmock w 1 [] eq_refl)))|].
  split; [exact (proj2 (proj2 (Hmock w 1 [] eq_refl)))|].
  split; [reflexivity|].
  split; [exact (proj1 (proj2 (Hremote r o url [] eq_refl)))|].
  exact (proj2 (proj2 (Hremote r o url [] eq_refl))).
Defined.

(** * Further properties of the two screens *)

(** ** Numbers as strings *)

Lemma to_int_not_nil (z : Z) :
  Z.to_int z <> Decimal.Pos Decimal.Nil /\ Z.to_int z <> Decimal.Neg Decimal.Nil.
Proof.
  destruct z as [|p|p]; cbn; split; try discriminate;
    intros [= H]; now apply Unsigned.to_uint_nonnil in H.
Qed.

(** Two integers with the same decimal string are the same integer: the
    titles of MOCK_DATA and the keys of both lists tell their items
    apart. *)
Lemma number_to_string_inj (z z' : Z) :
  number_to_string z = number_to_string z' -> z = z'.
Proof.
  unfold number_to_string. intros H.
  apply DecimalZ.to_int_inj.
  destruct (to_int_not_nil z) as [Hp Hn], (to_int_not_nil z') as [Hp' Hn'].
  pose proof (NilZero.isi _ Hp Hn) as E.
  rewrite H, (NilZero.isi _ Hp' Hn') in E. now injection E.
Qed.

Lemma In_of_firstn {A : Type} (x : A) (n : nat) (l : list A) :
  In x (firstn n l) -> In x l.
Proof.
  revert n; induction l as [|y l IH]; intros [|n]; cbn; try tauto.
  intros [->|Hin]; [now left|right; eauto].
Qed.

Lemma In_of_skipn {A : Type} (x : A) (n : nat) (l : list A) :
  In x (skipn n l) -> In x l.
Proof.
  revert n; induction l as [|y l IH]; intros [|n]; cbn; try tauto.
  intros Hin. right. eauto.
Qed.

Lemma NoDup_of_firstn {A : Type} (n : nat) (l : list A) :
  NoDup l -> NoDup (firstn n l).
Proof.
  intros H; revert n; induction H as [|x l Hx _ IH]; intros [|n]; cbn;
    constructor; auto.
  intros Hin. apply Hx. now apply In_of_firstn in Hin.
Qed.

(** ** simulateFetch on every page number *)

Lemma js_slice_length {A : Type} (l : list A) (a b : Z) :
  let len := Z.of_nat (List.length l) in
  let k := if a <? 0 then Z.max (len + a) 0 else Z.min a len in
  let final := if b <? 0 then Z.max (len + b) 0 else Z.min b len in
  List.length (js_slice l a b) = Z.to_nat (final - k).
Proof.
  intros len k final. unfold js_slice. fold len. fold k. fold final.
  rewrite length_firstn, length_skipn.
  assert (Hlen : Z.of_nat (List.length l) = len) by reflexivity.
  assert (0 <= k <= len /\ final <= len)
    by (subst k final; destruct (Z.ltb_spec a 0), (Z.ltb_spec b 0); lia).
  clearbody len k final. lia.
Qed.

Lemma js_slice_incl {A : Type} (l : list A) (a b : Z) :
  incl (js_slice l a b) l.
Proof.
  intros x Hx. unfold js_slice in Hx.
  apply In_of_firstn in Hx. now apply In_of_skipn in Hx.
Qed.

(** X1. Whatever the page number, negative and zero included,
    simulateFetch resolves with at most PAGE_SIZE items, each of them an
    item of MOCK_DATA. *)
Theorem simulateFetch_page_size (page : Z) (result : list Mock.Item) :
  Mock.simulateFetch page = Fulfilled result ->
  Z.of_nat (List.length result) <= Mock.PAGE_SIZE /\
  incl result Mock.MOCK_DATA.
Proof.
  unfold Mock.simulateFetch. intros [= <-]. split.
  - rewrite js_slice_length, MOCK_DATA_length. unfold Mock.PAGE_SIZE.
    destruct (Z.ltb_spec ((page - 1) * 5) 0),
             (Z.ltb_spec ((page - 1) * 5 + 5) 0); lia.
  - apply js_slice_incl.
Qed.

Lemma simulateFetch_page_size_witness :
  exists result,
    Mock.simulateFetch (-1) = Fulfilled result /\
    Z.of_nat (List.length result) <= Mock.PAGE_SIZE /\
    incl result Mock.MOCK_DATA.
Proof.
  eexists. split; [reflexivity|].
  apply (simulateFetch_page_size (-1)). reflexivity.
Defined.

(** X2. simulateFetch signals the end of the data, by an empty result,
    exactly on page 0, on pages from 11 on and on pages up to -10; a
    negative page from -9 to -1 counts from the end of MOCK_DATA and gets
    the items of page + 10. *)
Theorem simulateFetch_empty_pages (page : Z) :
  (Mock.simulateFetch page = Fulfilled []
   <-> page <= -10 \/ page = 0 \/ 11 <= page) /\
  (-9 <= page <= -1 ->
   Mock.simulateFetch page = Mock.simulateFetch (page + 10)).
Proof.
  split.
  - unfold Mock.simulateFetch.
    set (result := js_slice _ _ _).
    assert (Hlen : List.length result
                   = Z.to_nat
                       (if (1 <=? page) && (page <=? 10) then 5
                        else if (-9 <=? page) && (page <=? -1) then 5
                        else 0)).
    { subst result. rewrite js_slice_length, MOCK_DATA_length.
      unfold Mock.PAGE_SIZE.
      destruct (Z.ltb_spec ((page - 1) * 5) 0),
               (Z.ltb_spec ((page - 1) * 5 + 5) 0),
               (Z.leb_spec 1 page), (Z.leb_spec page 10),
               (Z.leb_spec (-9) page), (Z.leb_spec page (-1));
        cbn [andb]; lia. }
    split.
    + intros [= E]. rewrite E in Hlen. cbn [List.length] in Hlen.
      destruct (Z.leb_spec 1 page), (Z.leb_spec page 10),
               (Z.leb_spec (-9) page), (Z.leb_spec page (-1));
        cbn [andb] in Hlen; lia.
    + intros Hp. f_equal. apply length_zero_iff_nil. rewrite Hlen.
      destruct (Z.leb_spec 1 page), (Z.leb_spec page 10),
               (Z.leb_spec (-9) page), (Z.leb_spec page (-1));
        cbn [andb]; lia.
  - intros Hp. unfold Mock.simulateFetch, js_slice, Mock.PAGE_SIZE.
    rewrite MOCK_DATA_length.
    destruct (Z.ltb_spec ((page - 1) * 5) 0); [|lia].
    destruct (Z.ltb_spec ((page - 1) * 5 + 5) 0); [|lia].
    destruct (Z.ltb_spec ((page + 10 - 1) * 5) 0); [lia|].
    destruct (Z.ltb_spec ((page + 10 - 1) * 5 + 5) 0); [lia|].
    do 2 f_equal; [|f_equal]; lia.
Qed.

Lemma simulateFetch_empty_pages_witness :
  -9 <= -1 <= -1 /\
  Mock.simulateFetch (-1) = Mock.simulateFetch 9 /\
  (-10 <= -10 \/ -10 = 0 \/ 11 <= -10) /\
  Mock.simulateFetch (-10) = Fulfilled [].
Proof.
  assert (H : -9 <= -1 <= -1) by lia.
  assert (H' : -10 <= -10 \/ -10 = 0 \/ 11 <= -10) by (left; lia).
  split; [exact H|].
  split; [exact (proj2 (simulateFetch_empty_pages (-1)) H)|].
  split; [exact H'|].
  exact (proj2 (proj1 (simulateFetch_empty_pages (-10))) H').
Defined.

(** ** The mock screen while it renders after every event *)

Lemma step_ends_after_last_page (w : Mock.World) (e : Mock.Event) :
  Mock.consistent w ->
  Mock.ends_after_last_page w ->
  Mock.ends_after_last_page (Mock.step_rendered w e).
Proof.
  unfold Mock.step_rendered.
  destruct w as [[s|] r fl rq con st]; intros [_ Hw] He;
    unfold Mock.ends_after_last_page in *;
    cbn -[Mock.count_up Mock.pages_before] in Hw, He.
  - destruct Hw as (-> & Hp & _ & Hfl & _).
    destruct s as [d p l h]; cbn [Mock.page Mock.loading Mock.hasMore] in *.
    destruct e; cbn [Mock.step].
    + unfold Mock.invoke, Mock.fetchData_enter;
        cbn [Mock.view Mock.rendered Mock.loading Mock.hasMore].
      destruct (l || negb h); cbn; exact He.
    + unfold Mock.timer_fired; cbn [Mock.inflight].
      destruct Hfl as [[-> ->]|(-> & -> & ->)]; [exact He|].
      rewrite simulateFetch_page by lia.
      unfold Mock.settle, Mock.fetchData_resume; cbn [Mock.inflight].
      destruct (Z.eqb_spec
                  (Z.of_nat (List.length
                     (firstn 5 (skipn (Z.to_nat (Mock.PAGE_SIZE * (p - 1)))
                                      Mock.MOCK_DATA)))) 0) as [E|E]; cbn.
      * intros _. destruct (Z.le_gt_cases p 10) as [Hle|Hgt]; [|lia].
        rewrite page_length in E by lia. discriminate.
      * discriminate.
    + exact I.
    + exact He.
  - destruct e; cbn [Mock.step]; trivial.
    unfold Mock.timer_fired, Mock.settle; cbn [Mock.inflight Mock.view].
    destruct fl as [|p fl]; trivial.
    now destruct (Mock.fetchData_resume _).
Qed.

Lemma run_ends_after_last_page (es : list Mock.Event) (w : Mock.World) :
  Mock.consistent w ->
  Mock.ends_after_last_page w ->
  Mock.ends_after_last_page (Mock.run_rendered w es).
Proof.
  revert w; induction es as [|e es IH]; intros w Hw He; [exact He|].
  change (Mock.run_rendered w (e :: es))
    with (Mock.run_rendered (Mock.step_rendered w e) es).
  apply IH; [now apply step_consistent|now apply step_ends_after_last_page].
Qed.

Lemma pages_before_last : Mock.pages_before 11 = Mock.MOCK_DATA.
Proof. vm_compute. reflexivity. Qed.

Lemma consistent_page (w : Mock.World) (s : Mock.State) :
  Mock.consistent w -> Mock.view w = Some s -> 1 <= Mock.page s <= 11.
Proof.
  intros [_ Hw] Hs. rewrite Hs in Hw. now destruct Hw as (_ & Hp & _).
Qed.

(** A world where hasMore is false shows all of MOCK_DATA. *)
Lemma finished_world (w : Mock.World) (s : Mock.State) :
  Mock.consistent w -> Mock.ends_after_last_page w ->
  Mock.view w = Some s -> Mock.hasMore s = false ->
  Mock.page s = 11 /\ Mock.data s = Mock.MOCK_DATA.
Proof.
  intros [_ Hw] He Hs Hh. unfold Mock.ends_after_last_page in He.
  rewrite Hs in Hw, He. destruct Hw as (_ & _ & Hd & _).
  assert (H11 : Mock.page s = 11) by now apply He.
  split; [exact H11|]. rewrite Hd, H11. apply pages_before_last.
Qed.

(** X3. In a run in which the screen renders after each event, the mock
    screen never gives up early: hasMore is false only once all 50 items
    of MOCK_DATA are in data, on page 11. *)
Theorem mock_stops_only_when_complete
  (es : list Mock.Event) (s : Mock.State) :
  Mock.view (Mock.run_rendered Mock.mounted es) = Some s ->
  Mock.hasMore s = false ->
  Mock.page s = 11 /\ Mock.data s = Mock.MOCK_DATA /\
  List.length (Mock.data s) = 50%nat.
Proof.
  intros Hs Hh.
  assert (He : Mock.ends_after_last_page (Mock.run_rendered Mock.mounted es))
    by (apply run_ends_after_last_page;
        [apply mounted_consistent|discriminate]).
  destruct (finished_world _ s
              (run_consistent es Mock.mounted mounted_consistent) He Hs Hh)
    as [Hp Hd].
  rewrite Hd. repeat split. exact Hp.
Qed.

Lemma mock_stops_only_when_complete_witness :
  Mock.page (Mock.mkState Mock.MOCK_DATA 11 false false) = 11 /\
  Mock.data (Mock.mkState Mock.MOCK_DATA 11 false false) = Mock.MOCK_DATA.
Proof.
  assert (Hv : Mock.view (Mock.run_rendered Mock.mounted
                 (List.concat (repeat [Mock.EndReached; Mock.TimerFired] 11)))
               = Some (Mock.mkState Mock.MOCK_DATA 11 false false))
    by (vm_compute; reflexivity).
  split.
  - exact (proj1 (mock_stops_only_when_complete _ _ Hv eq_refl)).
  - exact (proj1 (proj2 (mock_stops_only_when_complete _ _ Hv eq_refl))).
Defined.

Lemma step_requests (w : Mock.World) (e : Mock.Event) :
  Mock.requests (Mock.step_rendered w e) = Mock.requests w \/
  exists s, Mock.view (Mock.step_rendered w e) = Some s.
Proof.
  unfold Mock.step_rendered, Mock.render.
  destruct (Mock.view (Mock.step w e)) as [s|] eqn:Hs;
    [right; now exists s|left].
  destruct e; cbn [Mock.step] in *.
  - unfold Mock.invoke in *. destruct (Mock.view w) as [s|]; trivial.
    destruct (Mock.fetchData_enter _); discriminate.
  - unfold Mock.timer_fired, Mock.settle.
    destruct (Mock.inflight w) as [|p fl]; trivial.
    destruct (Mock.fetchData_resume _), (Mock.view w); reflexivity.
  - reflexivity.
  - unfold Mock.render. now destruct (Mock.view w).
Qed.

Lemma consistent_requests (w : Mock.World) (s : Mock.State) :
  Mock.consistent w -> Mock.view w = Some s ->
  exists n, 0 <= n <= 11 /\ n <= Mock.page s /\
            Mock.requests w = Mock.count_up n.
Proof.
  intros [_ Hw] Hs. rewrite Hs in Hw.
  destruct Hw as (_ & Hp & _ & Hfl & Hrq).
  eexists. split; [|split; [|exact Hrq]];
    destruct Hfl as [[-> _]|(-> & _ & ->)]; cbn [List.length Z.of_nat];
    try destruct (Mock.hasMore s); lia.
Qed.

Lemma run_requests (es : list Mock.Event) (w : Mock.World) :
  Mock.consistent w ->
  (exists n, 0 <= n <= 11 /\ Mock.requests w = Mock.count_up n) ->
  exists n, 0 <= n <= 11 /\
            Mock.requests (Mock.run_rendered w es) = Mock.count_up n.
Proof.
  revert w; induction es as [|e es IH]; intros w Hw Hn; [exact Hn|].
  change (Mock.run_rendered w (e :: es))
    with (Mock.run_rendered (Mock.step_rendered w e) es).
  pose proof (step_consistent w e Hw) as Hw'.
  apply IH; [exact Hw'|].
  destruct (step_requests w e) as [->|[s Hs]]; [exact Hn|].
  destruct (consistent_requests _ s Hw' Hs) as (n & Hb & _ & Hrq).
  now exists n.
Qed.

(** X4. In a run in which the screen renders after each event, the mock
    screen calls simulateFetch for pages 1, 2, ..., n in that order, once
    each, and never for a page beyond 11: at most eleven calls are made,
    and while the screen is mounted none is for a page beyond the current
    one. *)
Theorem mock_requests_in_order (es : list Mock.Event) :
  (exists n, 0 <= n <= 11 /\
             Mock.requests (Mock.run_rendered Mock.mounted es)
             = Mock.count_up n) /\
  (List.length (Mock.requests (Mock.run_rendered Mock.mounted es))
   <= 11)%nat /\
  (forall s, Mock.view (Mock.run_rendered Mock.mounted es) = Some s ->
             Forall (fun p => 1 <= p <= Mock.page s)
                    (Mock.requests (Mock.run_rendered Mock.mounted es))).
Proof.
  assert (H : exists n, 0 <= n <= 11 /\
                Mock.requests (Mock.run_rendered Mock.mounted es)
                = Mock.count_up n).
  { apply run_requests; [apply mounted_consistent|].
    exists 0. split; [lia|reflexivity]. }
  split; [exact H|split].
  - destruct H as (n & Hn & ->). unfold Mock.count_up.
    rewrite length_map, length_seq. lia.
  - intros s Hs.
    destruct (consistent_requests _ s
                (run_consistent es _ mounted_consistent) Hs)
      as (n & Hn & Hp & ->).
    unfold Mock.count_up. apply Forall_forall. intros p Hin.
    apply in_map_iff in Hin. destruct Hin as (i & <- & Hi).
    apply in_seq in Hi. lia.
Qed.

Lemma mock_requests_in_order_witness :
  Forall (fun p => 1 <= p <= 2)
    (Mock.requests
       (Mock.run_rendered Mock.mounted
          [Mock.EndReached; Mock.TimerFired; Mock.EndReached])).
Proof.
  exact (proj2 (proj2 (mock_requests_in_order
                         [Mock.EndReached; Mock.TimerFired; Mock.EndReached]))
               (Mock.mkState (Mock.pages_before 2) 2 true true) eq_refl).
Defined.

(** X5. On both screens, in a run in which the screen renders after each
    event, the footer shows the spinner exactly while a fetch is pending:
    renderFooter returns the loader when one call is in flight and null
    when none is. *)
Theorem footer_spinner_while_pending :
  (forall (es : list Mock.Event) (s : Mock.State),
     Mock.view (Mock.run_rendered Mock.mounted es) = Some s ->
     (Mock.renderFooter s = Some (loader "large" "#fff")
      <-> Mock.inflight (Mock.run_rendered Mock.mounted es) = [Mock.page s]) /\
     (Mock.renderFooter s = None
      <-> Mock.inflight (Mock.run_rendered Mock.mounted es) = [])) /\
  (forall (es : list Remote.Event) (s : Remote.State),
     Remote.view (Remote.run_rendered Remote.mounted es) = Some s ->
     (Remote.renderFooter s = Some (loader "large" "#fff")
      <-> Remote.inflight (Remote.run_rendered Remote.mounted es)
          = [String.append Remote.BACKEND_URL "/top-news"]) /\
     (Remote.renderFooter s = None
      <-> Remote.inflight (Remote.run_rendered Remote.mounted es) = [])).
Proof.
  split.
  - intros es s Hs.
    destruct (run_consistent es Mock.mounted mounted_consistent) as [_ Hw].
    rewrite Hs in Hw. destruct Hw as (_ & _ & _ & Hfl & _).
    unfold Mock.renderFooter.
    destruct Hfl as [[-> ->]|(-> & -> & _)]; cbn; repeat split;
      trivial; discriminate.
  - intros es s Hs. unfold Remote.renderFooter.
    pose proof (remote_run_consistent es Remote.mounted
                  remote_mounted_consistent) as Hw.
    unfold Remote.consistent in Hw. rewrite Hs in Hw.
    destruct Hw as [_ [[-> ->]|(-> & -> & _)]];
      cbn -[String.append]; repeat split; trivial; discriminate.
Qed.

Lemma footer_spinner_while_pending_witness :
  Mock.renderFooter (Mock.mkState [] 1 true true)
  = Some (loader "large" "#fff") /\
  Remote.renderFooter (Remote.mkState [] false true) = None.
Proof.
  pose proof footer_spinner_while_pending as [Hmock Hremote].
  split.
  - exact (proj2 (proj1 (Hmock [Mock.EndReached]
                           (Mock.mkState [] 1 true true) eq_refl)) eq_refl).
  - exact (proj2 (proj2 (Hremote [Remote.EndReached;
                                  Remote.Settles (Rejected "offline")]
                           (Remote.mkState [] false true) eq_refl)) eq_refl).
Defined.

(** ** The remote screen while it renders after every event *)

(** The state after the try body and the finally block, case by case. *)
Lemma remote_resume_state (o : Settled Remote.Response) (s : Remote.State) :
  let s' := Remote.apply_all s (fst (Remote.fetchData_resume o)) in
  Remote.loading s' = false /\
  ((Remote.data s' = Remote.data s /\ Remote.hasMore s' = Remote.hasMore s /\
    exists reason,
      snd (Remote.fetchData_resume o)
      = [console_error "Error fetching news:" reason]) \/
   (Remote.hasMore s' = false /\ snd (Remote.fetchData_resume o) = [] /\
    (Remote.data s' = Remote.data s \/
     (Remote.data s' <> [] /\
      o = Remote.body
            (Remote.json_object (Remote.articles_array (Remote.data s'))))))).
Proof.
  destruct o as [[[[|[| |[|item items]]]|r]]|r]; cbn -[String.append];
    (split; [reflexivity|]);
    first [ left; repeat split; eexists; reflexivity
          | right; repeat split; now left
          | right; repeat split; right; split; [discriminate|reflexivity] ].
Qed.

Lemma remote_settles_mounted (w : Remote.World) (o : Settled Remote.Response)
      (s : Remote.State) (url : string) (rest : list string) :
  Remote.view w = Some s -> Remote.inflight w = url :: rest ->
  Remote.settles o w
  = {| Remote.view :=
         Some (Remote.apply_all s (fst (Remote.fetchData_resume o)));
       Remote.rendered := Remote.rendered w;
       Remote.inflight := rest;
       Remote.requests := Remote.requests w;
       Remote.console := Remote.console w ++ snd (Remote.fetchData_resume o);
       Remote.stray := Remote.stray w |}.
Proof.
  destruct w as [v r fl rq con st]; cbn [Remote.view Remote.inflight].
  intros -> ->. unfold Remote.settles; cbn [Remote.inflight Remote.view].
  now destruct (Remote.fetchData_resume o).
Qed.

Lemma remote_invoke_mounted (w : Remote.World) (s : Remote.State) :
  Remote.view w = Some s ->
  Remote.invoke w
  = {| Remote.view :=
         Some (Remote.apply_all s
                 (fst (Remote.fetchData_enter (Remote.rendered w))));
       Remote.rendered := Remote.rendered w;
       Remote.inflight :=
         Remote.inflight w
         ++ Remote.request (snd (Remote.fetchData_enter (Remote.rendered w)));
       Remote.requests :=
         Remote.requests w
         ++ Remote.request (snd (Remote.fetchData_enter (Remote.rendered w)));
       Remote.console := Remote.console w;
       Remote.stray := Remote.stray w |}.
Proof.
  intros Hs. unfold Remote.invoke. rewrite Hs.
  now destruct (Remote.fetchData_enter _).
Qed.

Lemma remote_render_keeps (w : Remote.World) :
  Remote.view (Remote.render w) = Remote.view w /\
  Remote.inflight (Remote.render w) = Remote.inflight w /\
  Remote.requests (Remote.render w) = Remote.requests w /\
  Remote.console (Remote.render w) = Remote.console w.
Proof. unfold Remote.render. now destruct (Remote.view w) eqn:E. Qed.

(** Run by run: what the last event finds is what the events before it
    left. *)
Lemma remote_run_snoc (es : list Remote.Event) (e : Remote.Event)
      (w : Remote.World) :
  Remote.run_rendered w (es ++ [e])
  = Remote.step_rendered (Remote.run_rendered w es) e.
Proof. unfold Remote.run_rendered. now rewrite fold_left_app. Qed.

Lemma remote_view_after_step (w : Remote.World) (e : Remote.Event)
      (s : Remote.State) :
  Remote.view (Remote.step w e) = Some s ->
  exists s0, Remote.view w = Some s0.
Proof.
  destruct w as [[s0|] r fl rq con st]; [intros _; now exists s0|].
  destruct e as [|o| |]; cbn [Remote.step]; try discriminate.
  unfold Remote.settles; cbn [Remote.inflight Remote.view].
  destruct fl; [discriminate|].
  destruct (Remote.fetchData_resume o); discriminate.
Qed.

(** Where the articles on screen come from: data is empty, or hasMore is
    false and data is the articles array of a response received earlier
    in the run. *)
Lemma remote_data_origin (es : list Remote.Event) (s : Remote.State) :
  Remote.view (Remote.run_rendered Remote.mounted es) = Some s ->
  Remote.data s = [] \/
  (Remote.hasMore s = false /\
   In (Remote.Settles
         (Remote.body
            (Remote.json_object (Remote.articles_array (Remote.data s)))))
      es).
Proof.
  revert s. induction es as [|e es IH] using rev_ind; intros s Hs.
  - injection Hs as <-. now left.
  - rewrite remote_run_snoc in Hs. unfold Remote.step_rendered in Hs.
    rewrite (proj1 (remote_render_keeps _)) in Hs.
    destruct (remote_view_after_step _ _ _ Hs) as [s0 Hs0].
    specialize (IH s0 Hs0).
    assert (Hkeep : Remote.data s = Remote.data s0 ->
                    (Remote.hasMore s0 = false -> Remote.hasMore s = false) ->
                    Remote.data s = [] \/
                    (Remote.hasMore s = false /\
                     In (Remote.Settles
                           (Remote.body
                              (Remote.json_object
                                 (Remote.articles_array (Remote.data s)))))
                        (es ++ [e]))).
    { intros -> Hh. destruct IH as [IH|[IH Hin]]; [now left|right].
      split; [now apply Hh|]. apply in_or_app. now left. }
    destruct e as [|o| |]; cbn [Remote.step] in Hs.
    + rewrite (remote_invoke_mounted _ s0 Hs0) in Hs. injection Hs as <-.
      apply Hkeep; unfold Remote.fetchData_enter;
        destruct (_ || _); cbn; trivial.
    + destruct (Remote.inflight (Remote.run_rendered Remote.mounted es))
        as [|url rest] eqn:Hfl.
      * unfold Remote.settles in Hs. rewrite Hfl, Hs0 in Hs.
        injection Hs as <-. now apply Hkeep.
      * rewrite (remote_settles_mounted _ o s0 url rest Hs0 Hfl) in Hs.
        injection Hs as <-.
        destruct (remote_resume_state o s0)
          as (_ & [(Hd & Hh & _)|(Hh & _ & [Hd|[Hne Ho]])]).
        -- apply Hkeep; [exact Hd|congruence].
        -- apply Hkeep; [exact Hd|now intros _].
        -- right. split; [exact Hh|].
           apply in_or_app. right. left. now rewrite <- Ho.
    + discriminate.
    + rewrite (proj1 (remote_render_keeps _)), Hs0 in Hs.
      injection Hs as <-. now apply Hkeep.
Qed.

(** Once fetching has stopped, the screen has rendered and nothing is
    pending, the cells of the remote screen never change again. *)
Lemma remote_frozen (es : list Remote.Event) (w : Remote.World)
      (s s' : Remote.State) :
  Remote.hasMore s = false -> Remote.loading s = false ->
  Remote.view w = None \/
  (Remote.view w = Some s /\ Remote.rendered w = s /\ Remote.inflight w = []) ->
  Remote.view (Remote.run w es) = Some s' -> s' = s.
Proof.
  intros Hh Hl. revert w.
  induction es as [|e es IH]; intros w Hw Hs.
  - destruct Hw as [Hw|[Hw _]]; cbn in Hs; congruence.
  - change (Remote.run w (e :: es)) with (Remote.run (Remote.step w e) es) in Hs.
    apply IH in Hs; trivial.
    destruct w as [v r fl rq con st];
      cbn [Remote.view Remote.inflight Remote.rendered] in Hw.
    destruct Hw as [->|(-> & -> & ->)].
    + left. destruct e as [|o| |]; cbn [Remote.step]; trivial.
      unfold Remote.settles; cbn [Remote.inflight Remote.view].
      destruct fl; trivial. now destruct (Remote.fetchData_resume o).
    + destruct e as [|o| |]; cbn [Remote.step]; [right|right|now left|right].
      * unfold Remote.invoke, Remote.fetchData_enter;
          cbn [Remote.view Remote.rendered].
        rewrite Hh, Hl. cbn. now repeat split.
      * now repeat split.
      * now repeat split.
Qed.

(** X6. On the remote screen, in a run in which the screen renders after
    each event, articles are on screen only once hasMore is false; they
    are the articles array of a response received earlier in the run; and
    from then on no event, rendered or not, changes data, loading or
    hasMore. *)
Theorem remote_articles_shown_once
  (es : list Remote.Event) (s : Remote.State) :
  Remote.view (Remote.run_rendered Remote.mounted es) = Some s ->
  Remote.data s <> [] ->
  Remote.hasMore s = false /\ Remote.loading s = false /\
  In (Remote.Settles
        (Remote.body
           (Remote.json_object (Remote.articles_array (Remote.data s)))))
     es /\
  (forall (es' : list Remote.Event) (s' : Remote.State),
     Remote.view (Remote.run (Remote.run_rendered Remote.mounted es) es')
     = Some s' ->
     s' = s).
Proof.
  intros Hs Hne.
  destruct (remote_data_origin es s Hs) as [?|[Hh Hin]]; [contradiction|].
  pose proof (remote_run_consistent es Remote.mounted
                remote_mounted_consistent) as Hc.
  unfold Remote.consistent in Hc. rewrite Hs in Hc.
  destruct Hc as [Hr [[Hfl Hl]|(_ & _ & Ht)]]; [|congruence].
  repeat split; trivial.
  intros es' s'. apply (remote_frozen es' _ s s' Hh Hl). right. now split.
Qed.

Lemma remote_articles_shown_once_witness :
  let a := {| Remote.title := Some "A"; Remote.summary := None;
              Remote.content := None |} in
  let b := {| Remote.title := Some "B"; Remote.summary := None;
              Remote.content := None |} in
  let es := [Remote.EndReached;
             Remote.Settles
               (Remote.body (Remote.json_object (Remote.articles_array [a])))] in
  let es' := [Remote.EndReached; Remote.EndReached;
              Remote.Settles
                (Remote.body (Remote.json_object (Remote.articles_array [b])))] in
  let s := Remote.mkState [a] false false in
  Remote.view (Remote.run_rendered Remote.mounted es) = Some s /\
  Remote.data s <> [] /\
  Remote.hasMore s = false /\
  (forall s',
     Remote.view (Remote.run (Remote.run_rendered Remote.mounted es) es')
     = Some s' -> s' = s).
Proof.
  intros a b es es' s.
  assert (Hne : Remote.data s <> []) by discriminate.
  split; [reflexivity|]. split; [exact Hne|].
  split.
  - exact (proj1 (remote_articles_shown_once es s eq_refl Hne)).
  - exact (proj2 (proj2 (proj2 (remote_articles_shown_once es s
                                  eq_refl Hne))) es').
Defined.

Lemma remote_render_accounted (w : Remote.World) :
  Remote.accounted w -> Remote.accounted (Remote.render w).
Proof.
  unfold Remote.accounted, Remote.render.
  now destruct (Remote.view w) eqn:E; cbn; rewrite ?E.
Qed.

Lemma remote_step_accounted (w : Remote.World) (e : Remote.Event) :
  Remote.consistent w -> Remote.accounted w ->
  Remote.accounted (Remote.step_rendered w e).
Proof.
  intros Hc Ha. apply remote_render_accounted.
  destruct (Remote.view w) as [s|] eqn:Hs.
  - unfold Remote.consistent in Hc. unfold Remote.accounted in Ha.
    rewrite Hs in Hc, Ha. destruct Hc as [Hr Hc].
    destruct e as [|o| |]; cbn [Remote.step].
    + rewrite (remote_invoke_mounted w s Hs), Hr.
      unfold Remote.accounted, Remote.fetchData_enter.
      cbn [Remote.view Remote.requests Remote.console Remote.inflight].
      destruct Hc as [[Hfl Hl]|(Hfl & Hl & Hh)];
        rewrite Hfl in *; rewrite Hl; cbn [orb].
      * destruct (Remote.hasMore s) eqn:Hh; cbn -[String.append];
          rewrite ?Hh, ?length_app, ?app_nil_r; cbn [List.length] in *; lia.
      * cbn -[String.append]. rewrite app_nil_r. rewrite Hh in *.
        cbn [List.length] in *. lia.
    + destruct Hc as [[Hfl Hl]|(Hfl & Hl & Hh)].
      * unfold Remote.settles. rewrite Hfl.
        unfold Remote.accounted. now rewrite Hs.
      * rewrite (remote_settles_mounted w o s _ [] Hs Hfl).
        unfold Remote.accounted.
        cbn [Remote.view Remote.requests Remote.console Remote.inflight].
        rewrite Hh, Hfl in Ha. rewrite length_app.
        destruct (remote_resume_state o s)
          as (_ & [(_ & Hh' & reason & ->)|(-> & -> & _)]);
          [rewrite Hh', Hh|]; cbn [List.length] in *; lia.
    + unfold Remote.accounted.
      cbn [Remote.unmount Remote.view Remote.requests Remote.console].
      destruct Hc as [[Hfl _]|(Hfl & _ & Hh)]; rewrite Hfl in Ha;
        destruct (Remote.hasMore s); cbn [List.length] in Ha; lia.
    + apply remote_render_accounted. unfold Remote.accounted.
      now rewrite Hs.
  - unfold Remote.accounted in *. rewrite Hs in Ha.
    destruct w as [v r fl rq con st]; cbn [Remote.view] in Hs; subst v.
    destruct e as [|o| |]; cbn [Remote.step]; trivial.
    unfold Remote.settles; cbn [Remote.inflight Remote.view].
    destruct fl as [|url fl]; trivial.
    destruct (Remote.fetchData_resume o) as [cs out].
    cbn [Remote.view Remote.requests Remote.console] in *.
    rewrite length_app. lia.
Qed.

Lemma remote_run_accounted (es : list Remote.Event) (w : Remote.World) :
  Remote.consistent w -> Remote.accounted w ->
  Remote.accounted (Remote.run_rendered w es).
Proof.
  revert w; induction es as [|e es IH]; intros w Hc Ha; [exact Ha|].
  change (Remote.run_rendered w (e :: es))
    with (Remote.run_rendered (Remote.step_rendered w e) es).
  apply IH; [now apply remote_step_consistent|now apply remote_step_accounted].
Qed.

(** X7. In a run in which the screen renders after each event, the
    remote screen asks again only after an error: the number of GETs
    issued is at most one more than the number of error lines written, so
    a run without an error issues at most one GET; and every GET goes to
    BACKEND_URL/top-news. *)
Theorem remote_one_get_per_error (es : list Remote.Event) :
  let w := Remote.run_rendered Remote.mounted es in
  (List.length (Remote.requests w) <= List.length (Remote.console w) + 1)%nat /\
  (Remote.console w = [] -> (List.length (Remote.requests w) <= 1)%nat) /\
  Forall (fun url => url = String.append Remote.BACKEND_URL "/top-news")
         (Remote.requests w).
Proof.
  intros w.
  assert (Hle : (List.length (Remote.requests w)
                 <= List.length (Remote.console w) + 1)%nat).
  { pose proof (remote_run_accounted es Remote.mounted
                  remote_mounted_consistent eq_refl) as Ha.
    pose proof (remote_run_consistent es Remote.mounted
                  remote_mounted_consistent) as Hc.
    fold w in Ha, Hc. unfold Remote.accounted in Ha.
    unfold Remote.consistent in Hc.
    destruct (Remote.view w) as [s|]; [|exact Ha].
    destruct Hc as [_ [[Hfl _]|(Hfl & _ & Hh)]]; rewrite Hfl in Ha;
      destruct (Remote.hasMore s); cbn [List.length] in Ha; lia. }
  split; [exact Hle|]. split.
  - intros Hcon. rewrite Hcon in Hle. exact Hle.
  - clear Hle. subst w.
    induction es as [|e es IH] using rev_ind; [constructor|].
    rewrite remote_run_snoc. unfold Remote.step_rendered.
    rewrite (proj1 (proj2 (proj2 (remote_render_keeps _)))).
    destruct e as [|o| |]; cbn [Remote.step].
    + destruct (Remote.view (Remote.run_rendered Remote.mounted es))
        as [s|] eqn:Hs.
      * rewrite (remote_invoke_mounted _ s Hs). cbn [Remote.requests].
        apply Forall_app. split; [exact IH|].
        unfold Remote.fetchData_enter.
        destruct (_ || _); cbn -[String.append]; repeat constructor.
      * unfold Remote.invoke. now rewrite Hs.
    + unfold Remote.settles.
      destruct (Remote.inflight _); trivial.
      destruct (Remote.fetchData_resume o), (Remote.view _); exact IH.
    + exact IH.
    + now rewrite (proj1 (proj2 (proj2 (remote_render_keeps _)))).
Qed.

Lemma remote_one_get_per_error_witness :
  let es := [Remote.EndReached;
             Remote.Settles
               (Remote.body (Remote.json_object Remote.articles_null));
             Remote.EndReached; Remote.EndReached] in
  Remote.console (Remote.run_rendered Remote.mounted es) = [] /\
  (List.length (Remote.requests (Remote.run_rendered Remote.mounted es))
   <= 1)%nat.
Proof.
  intros es. split; [reflexivity|].
  exact (proj1 (proj2 (remote_one_get_per_error es)) eq_refl).
Defined.

(** ** Cards and keys *)

Lemma pages_before_ids (p : Z) :
  map Mock.id (Mock.pages_before p)
  = map Z.of_nat (seq 1 (List.length (Mock.pages_before p))).
Proof.
  unfold Mock.pages_before.
  rewrite <- firstn_map, MOCK_DATA_ids, firstn_map, firstn_of_seq.
  now rewrite length_firstn, MOCK_DATA_length.
Qed.

Lemma MOCK_DATA_cards :
  Forall (fun item =>
            Mock.thumbnail item = react_logo /\
            Mock.title item
            = String.append "News " (number_to_string (Mock.id item)))
         Mock.MOCK_DATA.
Proof. repeat constructor. Qed.

(** X8. In a run in which the mock screen renders after each event, the
    list has one card per item of data, keyed 1, 2, 3, ... in decimal: no
    two cards share a key, and each card shows the bundled image and the
    title "News " followed by its key. *)
Theorem mock_cards_keyed (es : list Mock.Event) (s : Mock.State) :
  Mock.view (Mock.run_rendered Mock.mounted es) = Some s ->
  map fst (Mock.rows s)
  = map (fun k : nat => number_to_string (Z.of_nat k))
        (seq 1 (List.length (Mock.data s))) /\
  NoDup (map fst (Mock.rows s)) /\
  Forall (fun r : string * Mock.Card =>
            Mock.card_image (snd r) = react_logo /\
            Mock.card_title (snd r) = String.append "News " (fst r))
         (Mock.rows s).
Proof.
  intros Hs.
  destruct (run_consistent es Mock.mounted mounted_consistent) as [_ Hw].
  rewrite Hs in Hw. destruct Hw as (_ & _ & Hd & _).
  assert (Hkeys : map fst (Mock.rows s)
                  = map number_to_string (map Mock.id (Mock.data s))).
  { unfold Mock.rows. rewrite !map_map. reflexivity. }
  rewrite Hkeys, Hd, pages_before_ids, map_map.
  split; [reflexivity|split].
  - rewrite <- map_map. apply Injective_map_NoDup.
    + intros x y. apply number_to_string_inj.
    + apply Injective_map_NoDup;
        [intros x y; apply Nat2Z.inj | apply seq_NoDup].
  - unfold Mock.rows. rewrite Hd. apply Forall_map.
    apply Forall_of_firstn.
    eapply Forall_impl; [|apply MOCK_DATA_cards].
    intros item [Hi Ht]. split; [exact Hi|exact Ht].
Qed.

Lemma mock_cards_keyed_witness :
  map fst (Mock.rows (Mock.mkState (Mock.pages_before 2) 2 false true))
  = ["1"; "2"; "3"; "4"; "5"] /\
  map fst (Mock.rows (Mock.mkState (Mock.pages_before 2) 2 false true))
  = map (fun k : nat => number_to_string (Z.of_nat k))
        (seq 1 (List.length (Mock.pages_before 2))).
Proof.
  split; [reflexivity|].
  exact (proj1 (mock_cards_keyed [Mock.EndReached; Mock.TimerFired]
                  (Mock.mkState (Mock.pages_before 2) 2 false true)
                  eq_refl)).
Defined.

Lemma remote_rows_from (items : list Remote.Article) (start : nat) :
  map Remote.row_key
      (map (fun p : nat * Remote.Article => Remote.renderItem (snd p) (fst p))
           (combine (seq start (List.length items)) items))
  = map (fun i : nat => number_to_string (Z.of_nat i))
        (seq start (List.length items)) /\
  forall (i : nat) (item : Remote.Article),
    nth_error items i = Some item ->
    nth_error
      (map (fun p : nat * Remote.Article => Remote.renderItem (snd p) (fst p))
           (combine (seq start (List.length items)) items)) i
    = Some (Remote.renderItem item (start + i)).
Proof.
  revert start; induction items as [|a items IH]; intros start.
  - split; [reflexivity|]. now intros [|i].
  - destruct (IH (S start)) as [Hk Hn]. cbn [List.length seq combine map].
    split; [now rewrite Hk|].
    intros [|i] item; cbn [nth_error].
    + intros [= <-]. now rewrite Nat.add_0_r.
    + intros Hi. rewrite (Hn i item Hi). f_equal. f_equal. lia.
Qed.

(** X9. Whatever the articles, duplicates included, the remote list has
    one card per element of data, in order; the card at index i is
    renderItem of the article at index i, and its key is the decimal of
    i, so no two cards share a key. *)
Theorem remote_cards_keyed (s : Remote.State) :
  List.length (Remote.rows s) = List.length (Remote.data s) /\
  NoDup (map Remote.row_key (Remote.rows s)) /\
  (forall (i : nat) (item : Remote.Article),
     nth_error (Remote.data s) i = Some item ->
     nth_error (Remote.rows s) i = Some (Remote.renderItem item i) /\
     Remote.row_key (Remote.renderItem item i)
     = number_to_string (Z.of_nat i)).
Proof.
  unfold Remote.rows.
  destruct (remote_rows_from (Remote.data s) 0) as [Hk Hn].
  split; [|split].
  - rewrite length_map, length_combine, length_seq. lia.
  - rewrite Hk, <- (map_map Z.of_nat number_to_string).
    apply Injective_map_NoDup.
    + intros x y. apply number_to_string_inj.
    + apply Injective_map_NoDup;
        [intros x y; apply Nat2Z.inj | apply seq_NoDup].
  - intros i item Hi. split; [exact (Hn i item Hi)|reflexivity].
Qed.

Lemma remote_cards_keyed_witness :
  let a := {| Remote.title := Some "A"; Remote.summary := None;
              Remote.content := None |} in
  let s := Remote.mkState [a; a] false false in
  nth_error (Remote.data s) 1 = Some a /\
  nth_error (Remote.rows s) 1 = Some (Remote.renderItem a 1).
Proof.
  intros a s. split; [reflexivity|].
  exact (proj1 (proj2 (proj2 (remote_cards_keyed s)) 1%nat a eq_refl)).
Defined.

(** ** The mock screen always gets to the end *)

Lemma remaining_none (s s' : Mock.State) :
  1 <= Mock.page s <= 11 -> 1 <= Mock.page s' <= 11 ->
  Mock.remaining s' <= Z.max 0 (Mock.remaining s - Z.of_nat 11) ->
  Mock.hasMore s' = false.
Proof.
  intros Hp Hp' Hr. unfold Mock.remaining in Hr.
  destruct (Mock.hasMore s'), (Mock.hasMore s); trivial; lia.
Qed.

(** A call leaves page and hasMore as they are, and is pending after it
    when hasMore is true. *)
Lemma call_remaining (w : Mock.World) (s : Mock.State) :
  Mock.consistent w -> Mock.view w = Some s ->
  exists s1,
    Mock.view (Mock.step_rendered w Mock.EndReached) = Some s1 /\
    Mock.remaining s1 = Mock.remaining s /\
    (Mock.hasMore s = true ->
     Mock.inflight (Mock.step_rendered w Mock.EndReached) = [Mock.page s1]).
Proof.
  destruct w as [v r fl rq con st]; intros [_ Hw] Hs;
    cbn -[Mock.count_up Mock.pages_before] in Hw, Hs; subst v.
  destruct Hw as (-> & _ & _ & Hfl & _).
  destruct s as [d p l h]; cbn [Mock.page Mock.loading Mock.hasMore] in *.
  unfold Mock.step_rendered; cbn [Mock.step].
  unfold Mock.invoke, Mock.fetchData_enter;
    cbn [Mock.view Mock.rendered Mock.loading Mock.hasMore].
  destruct Hfl as [[-> ->]|(-> & -> & ->)]; cbn [orb].
  - destruct h; cbn; eexists; (split; [reflexivity|]);
      (split; [reflexivity|]); [reflexivity|discriminate].
  - cbn. eexists. split; [reflexivity|]. split; reflexivity.
Qed.

(** The completion of the pending call brings the end one call
    nearer. *)
Lemma completion_remaining (w : Mock.World) (s : Mock.State) :
  Mock.consistent w -> Mock.view w = Some s ->
  (Mock.hasMore s = true -> Mock.inflight w = [Mock.page s]) ->
  exists s',
    Mock.view (Mock.step_rendered w Mock.TimerFired) = Some s' /\
    Mock.remaining s' <= Z.max 0 (Mock.remaining s - 1).
Proof.
  destruct w as [v r fl rq con st]; intros [_ Hw] Hs Hpending;
    cbn -[Mock.count_up Mock.pages_before] in Hw, Hs, Hpending; subst v.
  destruct Hw as (-> & Hp & _ & Hfl & _).
  destruct s as [d p l h]; cbn [Mock.page Mock.loading Mock.hasMore] in *.
  unfold Mock.step_rendered; cbn [Mock.step].
  unfold Mock.timer_fired; cbn [Mock.inflight].
  destruct h.
  - rewrite (Hpending eq_refl) in *.
    rewrite simulateFetch_page by lia.
    unfold Mock.settle, Mock.fetchData_resume; cbn [Mock.inflight Mock.view].
    set (result := firstn 5 _).
    destruct (Z.eqb_spec (Z.of_nat (List.length result)) 0) as [E|E].
    + eexists. split; [reflexivity|].
      unfold Mock.remaining. cbn [Mock.apply_all fold_left Mock.apply app
        Mock.hasMore]. lia.
    + assert (Hne : result <> []) by (intros E'; apply E; now rewrite E').
      pose proof (page_not_empty p (proj1 Hp) Hne).
      eexists. split; [reflexivity|].
      unfold Mock.remaining. cbn [Mock.apply_all fold_left Mock.apply app
        Mock.hasMore Mock.page]. lia.
  - destruct Hfl as [[-> _]|(_ & _ & ?)]; [|discriminate].
    eexists. split; [reflexivity|]. unfold Mock.remaining. cbn. lia.
Qed.

Lemma round_remaining (w : Mock.World) (s : Mock.State) :
  Mock.consistent w -> Mock.view w = Some s ->
  exists s', Mock.view (Mock.round w) = Some s' /\
             Mock.remaining s' <= Z.max 0 (Mock.remaining s - 1).
Proof.
  intros Hw Hs. unfold Mock.round.
  destruct (call_remaining w s Hw Hs) as (s1 & Hs1 & Hr1 & Hfl).
  pose proof (step_consistent w Mock.EndReached Hw) as Hw1.
  assert (Hpending : Mock.hasMore s1 = true ->
                     Mock.inflight (Mock.step_rendered w Mock.EndReached)
                     = [Mock.page s1]).
  { intros Hh. apply Hfl. unfold Mock.remaining in Hr1.
    destruct (Mock.hasMore s); trivial. rewrite Hh in Hr1.
    pose proof (consistent_page _ s1 Hw1 Hs1). lia. }
  destruct (completion_remaining _ s1 Hw1 Hs1 Hpending) as (s' & Hs' & Hr').
  exists s'. split; [exact Hs'|]. lia.
Qed.

Lemma round_consistent (w : Mock.World) :
  Mock.consistent w -> Mock.consistent (Mock.round w).
Proof.
  intros Hw. unfold Mock.round. now do 2 apply step_consistent.
Qed.

Lemma round_ends_after_last_page (w : Mock.World) :
  Mock.consistent w -> Mock.ends_after_last_page w ->
  Mock.ends_after_last_page (Mock.round w).
Proof.
  intros Hw He. unfold Mock.round.
  apply step_ends_after_last_page.
  - now apply step_consistent.
  - now apply step_ends_after_last_page.
Qed.

Lemma rounds_remaining (k : nat) (w : Mock.World) (s : Mock.State) :
  Mock.consistent w -> Mock.ends_after_last_page w ->
  Mock.view w = Some s ->
  Mock.consistent (Mock.rounds k w) /\
  Mock.ends_after_last_page (Mock.rounds k w) /\
  exists s', Mock.view (Mock.rounds k w) = Some s' /\
             Mock.remaining s' <= Z.max 0 (Mock.remaining s - Z.of_nat k).
Proof.
  intros Hw He Hs. induction k as [|k (Hc & He' & s' & Hs' & Hr)].
  - split; [exact Hw|split; [exact He|]].
    exists s. split; [exact Hs|]. cbn [Z.of_nat]. lia.
  - cbn [Mock.rounds].
    split; [now apply round_consistent|].
    split; [now apply round_ends_after_last_page|].
    destruct (round_remaining _ s' Hc Hs') as (s'' & Hs'' & Hr').
    exists s''. split; [exact Hs''|]. lia.
Qed.

(** X10. The mock screen can always finish: after any run in which it
    rendered after each event, as long as it is mounted, eleven more calls
    of fetchData, each carried to its end with a render after the call and
    after the completion, leave all 50 items of MOCK_DATA in data with
    hasMore false. *)
Theorem mock_always_completes (es : list Mock.Event) (s : Mock.State) :
  Mock.view (Mock.run_rendered Mock.mounted es) = Some s ->
  exists s',
    Mock.view (Mock.rounds 11 (Mock.run_rendered Mock.mounted es)) = Some s' /\
    Mock.hasMore s' = false /\ Mock.page s' = 11 /\
    Mock.data s' = Mock.MOCK_DATA.
Proof.
  intros Hs.
  pose proof (run_consistent es Mock.mounted mounted_consistent) as Hc.
  assert (He : Mock.ends_after_last_page (Mock.run_rendered Mock.mounted es))
    by (apply run_ends_after_last_page;
        [apply mounted_consistent|discriminate]).
  destruct (rounds_remaining 11 _ s Hc He Hs) as (Hc' & He' & s' & Hs' & Hr).
  exists s'. split; [exact Hs'|].
  assert (Hh : Mock.hasMore s' = false)
    by exact (remaining_none s s' (consistent_page _ s Hc Hs)
                (consistent_page _ s' Hc' Hs') Hr).
  split; [exact Hh|].
  exact (finished_world _ s' Hc' He' Hs' Hh).
Qed.

Lemma mock_always_completes_witness :
  exists s',
    Mock.view
      (Mock.rounds 11 (Mock.run_rendered Mock.mounted
                         [Mock.EndReached; Mock.EndReached])) = Some s' /\
    Mock.hasMore s' = false /\ Mock.page s' = 11 /\
    Mock.data s' = Mock.MOCK_DATA.
Proof.
  exact (mock_always_completes [Mock.EndReached; Mock.EndReached]
           (Mock.mkState [] 1 true true) eq_refl).
Defined.
